(** * ENS MCP server: dispatcher and domain operations

    A shallow embedding of [ens_mcp_server.py] (class [ENSMCPServer]) and the
    properties of its request router, its four domain operations and its
    stdio serving loop.

    Python values that cross the protocol boundary are JSON values; the
    blockchain client ([web3], [ens]) is a record of functions that either
    return or raise; every call made on it, every line printed and every log
    record is appended to a trace, so that "without calling the resolver" and
    "writes exactly one line" are statements about that trace. *)

From Stdlib Require Import ZArith String Ascii List Bool Lia.
From Stdlib Require Import PrimFloat DecimalString.
Import ListNotations.
Open Scope string_scope.

Set Warnings "-register-all".

(* ================================================================= *)
(** ** Strings

    A [string] carries the text of a Python [str].  The server never looks
    inside one except to ask whether it is empty; [str.strip] and
    [str.lower] are built-ins the model is parametric in (see [Runtime]).

    [strip] and [lower] below are the stand-ins the concrete runtime of
    module [Demo] uses to run the server on examples.  They agree with the
    built-ins on ASCII text only: whitespace is TAB..CR, FS..US and SPACE,
    and [lower] maps 'A'..'Z' to 'a'..'z'.  Every general statement about
    the server is made for an arbitrary runtime; the stand-ins appear only
    where the server is run on a concrete example. *)

Module PyStr.

Definition isspace (c : ascii) : bool :=
  let n := nat_of_ascii c in
  (((9 <=? n) && (n <=? 13)) || ((28 <=? n) && (n <=? 32)))%nat.

Definition lower_char (c : ascii) : ascii :=
  let n := nat_of_ascii c in
  if ((65 <=? n) && (n <=? 90))%nat then ascii_of_nat (n + 32) else c.

Definition is_empty (s : string) : bool :=
  match s with EmptyString => true | String _ _ => false end.

Fixpoint lstrip (s : string) : string :=
  match s with
  | EmptyString => EmptyString
  | String c rest => if isspace c then lstrip rest else s
  end.

Fixpoint rstrip (s : string) : string :=
  match s with
  | EmptyString => EmptyString
  | String c rest =>
      let r := rstrip rest in
      if isspace c && is_empty r then EmptyString else String c r
  end.

(** [s.strip()] *)
Definition strip (s : string) : string := lstrip (rstrip s).

(** [s.lower()] *)
Fixpoint lower (s : string) : string :=
  match s with
  | EmptyString => EmptyString
  | String c rest => String (lower_char c) (lower rest)
  end.

End PyStr.

(* ================================================================= *)
(** ** JSON values

    What [json.loads] produces and [json.dumps] consumes.  A JSON object is
    kept as an association list in insertion order, as a Python [dict]. *)

Inductive json : Type :=
| JNull
| JBool (b : bool)
| JInt (z : Z)
| JFloat (f : float)
| JStr (s : string)
| JList (l : list json)
| JDict (d : list (string * json)).

Definition dict := list (string * json).

(** [key in d] / [d.get(key)] on the entries of a dict. *)
Fixpoint dict_get (key : string) (d : dict) : option json :=
  match d with
  | [] => None
  | (k, v) :: rest => if String.eqb k key then Some v else dict_get key rest
  end.

(** [d[key] = v]: overwrite in place when the key exists, append otherwise. *)
Fixpoint dict_set (d : dict) (key : string) (v : json) : dict :=
  match d with
  | [] => [(key, v)]
  | (k, w) :: rest =>
      if String.eqb k key then (k, v) :: rest else (k, w) :: dict_set rest key v
  end.

(** The entries of a JSON value that is an object; none otherwise. *)
Definition fields (j : json) : dict :=
  match j with JDict d => d | _ => [] end.

Definition field (key : string) (j : json) : option json :=
  dict_get key (fields j).

Definition has_field (key : string) (j : json) : bool :=
  match field key j with Some _ => true | None => false end.

(** [type(j).__name__] *)
Definition type_name (j : json) : string :=
  match j with
  | JNull => "NoneType"
  | JBool _ => "bool"
  | JInt _ => "int"
  | JFloat _ => "float"
  | JStr _ => "str"
  | JList _ => "list"
  | JDict _ => "dict"
  end.

(** [j == s] for a string literal [s]. *)
Definition py_eq_str (j : json) (s : string) : bool :=
  match j with JStr s' => String.eqb s' s | _ => false end.

(** [j == 60]: numbers compare by value, and [bool] is a subclass of
    [int] ([True == 1], [False == 0]). *)
Definition py_eq_60 (j : json) : bool :=
  match j with
  | JInt z => Z.eqb z 60
  | JFloat f => PrimFloat.eqb f 60%float
  | _ => false
  end.

(** A value the collaborator hands back where Python has [Optional[str]]. *)
Definition opt_json (o : option string) : json :=
  match o with Some s => JStr s | None => JNull end.

(** Truth value of an [Optional[str]]: [None] and the empty string are false. *)
Definition truthy (o : option string) : bool :=
  match o with
  | Some s => negb (PyStr.is_empty s)
  | None => false
  end.

(** [bool(j)]: the truth value of any JSON value. *)
Definition py_truthy (j : json) : bool :=
  match j with
  | JNull => false
  | JBool b => b
  | JInt z => negb (Z.eqb z 0)
  | JFloat f => negb (PrimFloat.eqb f 0%float)
  | JStr s => negb (PyStr.is_empty s)
  | JList l => match l with [] => false | _ :: _ => true end
  | JDict d => match d with [] => false | _ :: _ => true end
  end.

(** [s * n] *)
Fixpoint py_repeat (s : string) (n : nat) : string :=
  match n with
  | O => EmptyString
  | S n' => s ++ py_repeat s n'
  end.

(** The newline character, as in the escape backslash-n. *)
Definition nl : string := String (ascii_of_nat 10) EmptyString.

(* ================================================================= *)
(** ** Exceptions

    Instances of Python's [Exception] that the server can meet.  [str e] is
    what an f-string renders for [{e}] / [{str(e)}]. *)

Inductive exn : Type :=
| KeyError (key : string)               (* d[key] on a dict without key *)
| AttributeError (ty attr : string)     (* x.attr on a value of type ty *)
| TypeError (msg : string)
| JSONDecodeError (msg : string)        (* json.loads *)
| ENSException (msg : string)           (* ens.exceptions.ENSException *)
| ConnectionError (msg : string)
| OtherException (cls msg : string).    (* any other Exception subclass *)

Definition str_exn (e : exn) : string :=
  match e with
  | KeyError key => "'" ++ key ++ "'"
  | AttributeError ty attr =>
      "'" ++ ty ++ "' object has no attribute '" ++ attr ++ "'"
  | TypeError msg => msg
  | JSONDecodeError msg => msg
  | ENSException msg => msg
  | ConnectionError msg => msg
  | OtherException _ msg => msg
  end.

(** [isinstance(e, ENSException)] *)
Definition is_ENSException (e : exn) : bool :=
  match e with ENSException _ => true | _ => false end.

(** [isinstance(e, json.JSONDecodeError)] *)
Definition is_JSONDecodeError (e : exn) : bool :=
  match e with JSONDecodeError _ => true | _ => false end.

(** The outcome of evaluating an expression: a value, or a raised exception. *)
Inductive exc (A : Type) : Type :=
| Ok (a : A)
| Raise (e : exn).

Arguments Ok {A} a.
Arguments Raise {A} e.

(* ================================================================= *)
(** ** Trace of effects *)

Inductive event : Type :=
| EnsAddress (name : string) (coin_type : option json)  (* ens.address(name[, coin_type=]) *)
| EnsName (address : string)                            (* ens.name(address) *)
| EnsGetText (name key : string)                        (* ens.get_text(name, key) *)
| EnsOwner (name : string)                              (* ens.owner(name) *)
| EnsResolver (name : string)                           (* ens.resolver(name) *)
| W3IsAddress (value : string)                          (* w3.is_address(value) *)
| W3ToChecksum (value : string)                         (* w3.to_checksum_address(value) *)
| Stdout (line : string)                                (* print(line, flush=True) *)
| LogInfo (msg : string)                                (* logger.info(msg) *)
| LogError (msg : string).                              (* logger.error(msg) *)

Definition trace := list event.

(** Is the event a call on the name-resolution collaborator proper? *)
Definition is_ens_call (ev : event) : bool :=
  match ev with
  | EnsAddress _ _ | EnsName _ | EnsGetText _ _ | EnsOwner _ | EnsResolver _ => true
  | _ => false
  end.

Definition is_stdout (ev : event) : bool :=
  match ev with Stdout _ => true | _ => false end.

(* ================================================================= *)
(** ** The monad of server code: a trace threaded through, and exceptions *)

Definition M (A : Type) : Type := trace -> exc A * trace.

Definition ret {A} (a : A) : M A := fun t => (Ok a, t).

Definition raise {A} (e : exn) : M A := fun t => (Raise e, t).

Definition bind {A B} (m : M A) (k : A -> M B) : M B :=
  fun t =>
    match m t with
    | (Ok a, t') => k a t'
    | (Raise e, t') => (Raise e, t')
    end.

(** [try: body  except Exception as e: handler(e)] *)
Definition try_except {A} (body : M A) (handler : exn -> M A) : M A :=
  fun t =>
    match body t with
    | (Ok a, t') => (Ok a, t')
    | (Raise e, t') => handler e t'
    end.

(** [try: body  except cls as e: handler(e)]: other exceptions propagate. *)
Definition try_except_cls {A} (cls : exn -> bool) (body : M A)
           (handler : exn -> M A) : M A :=
  fun t =>
    match body t with
    | (Ok a, t') => (Ok a, t')
    | (Raise e, t') => if cls e then handler e t' else (Raise e, t')
    end.

Definition emit (ev : event) : M unit := fun t => (Ok tt, (t ++ [ev])%list).

(** An effectful call: record it, then return or raise as the callee does. *)
Definition call {A} (ev : event) (outcome : exc A) : M A :=
  fun t => (outcome, (t ++ [ev])%list).

(** A pure expression that may raise. *)
Definition lift {A} (outcome : exc A) : M A := fun t => (outcome, t).

Declare Scope py_scope.
Delimit Scope py_scope with py.
Notation "x <- m ;; k" := (bind m (fun x => k))
  (at level 61, m at next level, right associativity) : py_scope.
Notation "m ;; k" := (bind m (fun _ => k))
  (at level 61, right associativity) : py_scope.
Open Scope py_scope.

(* ================================================================= *)
(** ** Collaborators

    The [web3] and [ens] objects the server holds, and the parts of the
    Python runtime it leans on.  None of them is code of this repository:
    each is a record of functions the server is parametric in. *)

(** A resolver contract object; [contract_address] is [None] when the object
    has no attribute [address]. *)
Record Contract : Type := {
  contract_address : option string
}.

Record ENS : Type := {
  ens_address : string -> option json -> exc (option string);
  ens_name : string -> exc (option string);
  ens_get_text : string -> string -> exc (option string);
  ens_owner : string -> exc (option string);
  ens_resolver : string -> exc (option Contract)
}.

Record Web3 : Type := {
  is_connected : bool;
  is_address : string -> bool;
  to_checksum_address : string -> exc string
}.

Record Runtime : Type := {
  (** [s.strip()]: the built-in, which removes every leading and trailing
      character Unicode counts as whitespace *)
  str_strip : string -> string;
  (** [s.lower()]: the built-in, which lowers every cased character *)
  str_lower : string -> string;
  (** [repr(j)], used by f-strings for values that are not strings *)
  py_repr : json -> string;
  (** [json.loads(text)] *)
  json_loads : string -> exc json;
  (** [json.dumps(j)] ([None]) and [json.dumps(j, indent=n)] ([Some n]) *)
  json_dumps : option nat -> json -> string;
  (** [datetime.utcnow().isoformat()] *)
  utcnow_isoformat : string;
  (** [Web3(Web3.HTTPProvider(rpc_url))] *)
  new_web3 : string -> exc Web3;
  (** [ENS.from_web3(w3)] *)
  ens_from_web3 : Web3 -> exc ENS
}.

(** [f"{j}"]: a string renders as itself, anything else through [repr]. *)
Definition format (py : Runtime) (j : json) : string :=
  match j with
  | JStr s => s
  | _ => py_repr py j
  end.

(** [j.strip()] *)
Definition py_strip (py : Runtime) (j : json) : exc string :=
  match j with
  | JStr s => Ok (str_strip py s)
  | _ => Raise (AttributeError (type_name j) "strip")
  end.

(** [j.strip().lower()] *)
Definition py_strip_lower (py : Runtime) (j : json) : exc string :=
  match j with
  | JStr s => Ok (str_lower py (str_strip py s))
  | _ => Raise (AttributeError (type_name j) "strip")
  end.

(** [j.get(key, default)] *)
Definition py_get (j : json) (key : string) (default : json) : exc json :=
  match j with
  | JDict d =>
      match dict_get key d with
      | Some v => Ok v
      | None => Ok default
      end
  | _ => Raise (AttributeError (type_name j) "get")
  end.

(** [j[key]] for a string key. *)
Definition py_subscript (j : json) (key : string) : exc json :=
  match j with
  | JDict d =>
      match dict_get key d with
      | Some v => Ok v
      | None => Raise (KeyError key)
      end
  (* the wording of CPython 3.11 and later *)
  | JList _ => Raise (TypeError "list indices must be integers or slices, not str")
  | JStr _ => Raise (TypeError "string indices must be integers, not 'str'")
  | _ => Raise (TypeError ("'" ++ type_name j ++ "' object is not subscriptable"))
  end.

(* ================================================================= *)
(** ** class ENSMCPServer *)

Record ENSMCPServer : Type := {
  rpc_url : string;
  w3 : option Web3;
  ens : option ENS
}.

Section Server.

Variable py : Runtime.

(** [initialize_web3]: returns [self] with [w3] and [ens] set, or raises. *)
Definition initialize_web3 (self : ENSMCPServer) : M ENSMCPServer :=
  try_except
    (w <- lift (new_web3 py (rpc_url self)) ;;
     let self := {| rpc_url := rpc_url self; w3 := Some w; ens := ens self |} in
     (if negb (is_connected w) then
        emit (LogError ("Failed to connect to Ethereum node at " ++ rpc_url self)) ;;
        raise (ConnectionError "Could not connect to Ethereum node")
      else ret tt) ;;
     e <- lift (ens_from_web3 py w) ;;
     let self := {| rpc_url := rpc_url self; w3 := w3 self; ens := Some e |} in
     emit (LogInfo ("Successfully connected to Ethereum node at " ++ rpc_url self)) ;;
     ret self)
    (fun e =>
       emit (LogError ("Failed to initialize Web3: " ++ str_exn e)) ;;
       raise e).

(** [ENSMCPServer.__init__] *)
Definition init (url : string) : M ENSMCPServer :=
  initialize_web3 {| rpc_url := url; w3 := None; ens := None |}.

Definition get_server_info : json :=
  JDict [
    ("name", JStr "ENS MCP Server");
    ("version", JStr "1.0.0");
    ("description", JStr "A Model Context Protocol server for Ethereum Name Service resolution");
    ("author", JStr "ENS MCP Team");
    ("capabilities", JDict [
       ("tools", JBool true);
       ("resources", JBool false);
       ("prompts", JBool false)])
  ].

Definition get_available_tools : list json := [
  JDict [
    ("name", JStr "resolve_ens_name");
    ("description", JStr "Resolve an ENS name to an Ethereum address");
    ("inputSchema", JDict [
       ("type", JStr "object");
       ("properties", JDict [
          ("ens_name", JDict [
             ("type", JStr "string");
             ("description", JStr "The ENS name to resolve (e.g., 'vitalik.eth')")]);
          ("coin_type", JDict [
             ("type", JStr "integer");
             ("description", JStr "Optional coin type for multi-chain address resolution (default: 60 for ETH)");
             ("default", JInt 60)])]);
       ("required", JList [JStr "ens_name"])])];
  JDict [
    ("name", JStr "reverse_resolve_address");
    ("description", JStr "Reverse resolve an Ethereum address to find its primary ENS name");
    ("inputSchema", JDict [
       ("type", JStr "object");
       ("properties", JDict [
          ("address", JDict [
             ("type", JStr "string");
             ("description", JStr "The Ethereum address to reverse resolve (e.g., '0x...')")])]);
       ("required", JList [JStr "address"])])];
  JDict [
    ("name", JStr "get_ens_text_record");
    ("description", JStr "Get a text record from an ENS name");
    ("inputSchema", JDict [
       ("type", JStr "object");
       ("properties", JDict [
          ("ens_name", JDict [
             ("type", JStr "string");
             ("description", JStr "The ENS name to query")]);
          ("key", JDict [
             ("type", JStr "string");
             ("description", JStr "The text record key (e.g., 'url', 'email', 'twitter', 'github')")])]);
       ("required", JList [JStr "ens_name"; JStr "key"])])];
  JDict [
    ("name", JStr "get_ens_info");
    ("description", JStr "Get comprehensive information about an ENS name");
    ("inputSchema", JDict [
       ("type", JStr "object");
       ("properties", JDict [
          ("ens_name", JDict [
             ("type", JStr "string");
             ("description", JStr "The ENS name to get information for")])]);
       ("required", JList [JStr "ens_name"])])]
].

(* ----------------------------------------------------------------- *)
(** *** resolve_ens_name

    The handlers read the local [ens_name], which is the argument as received
    until line 147 has rebound it and the normalised name from then on; the
    two segments of the [try] body are split accordingly. *)

Definition resolve_failure (msg : string) (ens_name coin_type : json) : json :=
  JDict [
    ("success", JBool false);
    ("error", JStr msg);
    ("ens_name", ens_name);
    ("coin_type", coin_type)
  ].

Definition resolve_except (ens_name coin_type : json) (e : exn) : M json :=
  if is_ENSException e then
    ret (resolve_failure ("ENS error: " ++ str_exn e) ens_name coin_type)
  else
    ret (resolve_failure ("Unexpected error: " ++ str_exn e) ens_name coin_type).

Definition resolve_ens_name (self : ENSMCPServer) (ens_name coin_type : json) : M json :=
  match ens self with
  | None => ret (resolve_failure "ENS not initialized" ens_name coin_type)
  | Some E =>
      try_except
        (name <- lift (py_strip_lower py ens_name) ;;
         try_except
           (address <-
              (if py_eq_60 coin_type then
                 call (EnsAddress name None) (ens_address E name None)
               else
                 call (EnsAddress name (Some coin_type))
                      (ens_address E name (Some coin_type))) ;;
            if negb (truthy address) then
              ret (resolve_failure ("No address found for ENS name: " ++ name)
                                   (JStr name) coin_type)
            else
              ret (JDict [
                ("success", JBool true);
                ("ens_name", JStr name);
                ("address", opt_json address);
                ("coin_type", coin_type);
                ("timestamp", JStr (utcnow_isoformat py))
              ]))
           (resolve_except (JStr name) coin_type))
        (resolve_except ens_name coin_type)
  end.

(* ----------------------------------------------------------------- *)
(** *** reverse_resolve_address *)

Definition reverse_failure (msg : string) (address : json) : json :=
  JDict [
    ("success", JBool false);
    ("error", JStr msg);
    ("address", address)
  ].

Definition reverse_except (address : json) (e : exn) : M json :=
  ret (reverse_failure ("Error during reverse resolution: " ++ str_exn e) address).

Definition reverse_resolve_address (self : ENSMCPServer) (address : json) : M json :=
  match w3 self, ens self with
  | Some W, Some E =>
      try_except
        (addr <- lift (py_strip py address) ;;
         try_except
           (valid <- call (W3IsAddress addr) (Ok (is_address W addr)) ;;
            if negb valid then
              ret (reverse_failure ("Invalid Ethereum address format: " ++ addr)
                                   (JStr addr))
            else
              checksum_address <-
                call (W3ToChecksum addr) (to_checksum_address W addr) ;;
              ens_name <- call (EnsName checksum_address) (ens_name E checksum_address) ;;
              if negb (truthy ens_name) then
                ret (reverse_failure
                       ("No ENS name found for address: " ++ checksum_address)
                       (JStr checksum_address))
              else
                ret (JDict [
                  ("success", JBool true);
                  ("address", JStr checksum_address);
                  ("ens_name", opt_json ens_name);
                  ("timestamp", JStr (utcnow_isoformat py))
                ]))
           (reverse_except (JStr addr)))
        (reverse_except address)
  | _, _ => ret (reverse_failure "Web3 or ENS not initialized" address)
  end.

(* ----------------------------------------------------------------- *)
(** *** get_ens_text_record *)

Definition text_failure (msg : string) (ens_name key : json) : json :=
  JDict [
    ("success", JBool false);
    ("error", JStr msg);
    ("ens_name", ens_name);
    ("key", key)
  ].

Definition text_except (ens_name key : json) (e : exn) : M json :=
  ret (text_failure ("Error getting text record: " ++ str_exn e) ens_name key).

Definition get_ens_text_record (self : ENSMCPServer) (ens_name key : json) : M json :=
  match ens self with
  | None => ret (text_failure "ENS not initialized" ens_name key)
  | Some E =>
      try_except
        (name <- lift (py_strip_lower py ens_name) ;;
         try_except
           (k <- lift (py_strip_lower py key) ;;
            try_except
              (text_value <- call (EnsGetText name k) (ens_get_text E name k) ;;
               ret (JDict [
                 ("success", JBool true);
                 ("ens_name", JStr name);
                 ("key", JStr k);
                 ("value", opt_json text_value);
                 ("timestamp", JStr (utcnow_isoformat py))
               ]))
              (text_except (JStr name) (JStr k)))
           (text_except (JStr name) key))
        (text_except ens_name key)
  end.

(* ----------------------------------------------------------------- *)
(** *** get_ens_info *)

Definition common_keys : list string :=
  ["url"; "email"; "twitter"; "github"; "discord"; "telegram"; "description"].

Definition info_failure (msg : string) (ens_name : json) : json :=
  JDict [
    ("success", JBool false);
    ("error", JStr msg);
    ("ens_name", ens_name)
  ].

Definition info_except (ens_name : json) (e : exn) : M json :=
  ret (info_failure ("Error getting ENS info: " ++ str_exn e) ens_name).

(** [resolver.address if resolver and hasattr(resolver, 'address') else None] *)
Definition resolver_address (resolver : option Contract) : json :=
  match resolver with
  | Some c => opt_json (contract_address c)
  | None => JNull
  end.

(** The [for key in common_keys] loop, over the keys still to visit. *)
Fixpoint collect_text_records (E : ENS) (name : string) (keys : list string)
         (text_records : dict) : M dict :=
  match keys with
  | [] => ret text_records
  | key :: rest =>
      text_records <-
        try_except
          (value <- call (EnsGetText name key) (ens_get_text E name key) ;;
           if truthy value then ret (dict_set text_records key (opt_json value))
           else ret text_records)
          (fun _ => ret text_records) ;;
      collect_text_records E name rest text_records
  end.

Definition get_ens_info (self : ENSMCPServer) (ens_name : json) : M json :=
  match ens self with
  | None => ret (info_failure "ENS not initialized" ens_name)
  | Some E =>
      try_except
        (name <- lift (py_strip_lower py ens_name) ;;
         try_except
           (let info := [
              ("success", JBool true);
              ("ens_name", JStr name);
              ("timestamp", JStr (utcnow_isoformat py))
            ] in
            address <-
              try_except
                (address <- call (EnsAddress name None) (ens_address E name None) ;;
                 ret (opt_json address))
                (fun _ => ret JNull) ;;
            let info := dict_set info "address" address in
            owner <-
              try_except
                (owner <- call (EnsOwner name) (ens_owner E name) ;;
                 ret (opt_json owner))
                (fun _ => ret JNull) ;;
            let info := dict_set info "owner" owner in
            resolver <-
              try_except
                (resolver <- call (EnsResolver name) (ens_resolver E name) ;;
                 ret (resolver_address resolver))
                (fun _ => ret JNull) ;;
            let info := dict_set info "resolver" resolver in
            text_records <- collect_text_records E name common_keys [] ;;
            let info := dict_set info "text_records" (JDict text_records) in
            ret (JDict info))
           (info_except (JStr name)))
        (info_except ens_name)
  end.

(* ----------------------------------------------------------------- *)
(** *** handle_tool_call *)

Definition tool_failure (msg : string) : json :=
  JDict [
    ("success", JBool false);
    ("error", JStr msg)
  ].

Definition handle_tool_call (self : ENSMCPServer) (tool_name arguments : json) : M json :=
  try_except
    (if py_eq_str tool_name "resolve_ens_name" then
       ens_name <- lift (py_subscript arguments "ens_name") ;;
       coin_type <- lift (py_get arguments "coin_type" (JInt 60)) ;;
       resolve_ens_name self ens_name coin_type
     else if py_eq_str tool_name "reverse_resolve_address" then
       address <- lift (py_subscript arguments "address") ;;
       reverse_resolve_address self address
     else if py_eq_str tool_name "get_ens_text_record" then
       ens_name <- lift (py_subscript arguments "ens_name") ;;
       key <- lift (py_subscript arguments "key") ;;
       get_ens_text_record self ens_name key
     else if py_eq_str tool_name "get_ens_info" then
       ens_name <- lift (py_subscript arguments "ens_name") ;;
       get_ens_info self ens_name
     else
       ret (tool_failure ("Unknown tool: " ++ format py tool_name)))
    (fun e => ret (tool_failure ("Error handling tool call: " ++ str_exn e))).

(* ----------------------------------------------------------------- *)
(** *** handle_message *)

Definition error_response (id : json) (code : Z) (message : string) : json :=
  JDict [
    ("id", id);
    ("error", JDict [
       ("code", JInt code);
       ("message", JStr message)])
  ].

Definition result_response (id : json) (result : json) : json :=
  JDict [
    ("id", id);
    ("result", result)
  ].

(** The body of the [try] in [handle_message]. *)
Definition handle_message_body (self : ENSMCPServer) (message : json) : M json :=
  method <- lift (py_get message "method" JNull) ;;
  if py_eq_str method "initialize" then
    id <- lift (py_get message "id" JNull) ;;
    ret (result_response id (JDict [
      ("protocolVersion", JStr "2024-11-05");
      ("capabilities", JDict [
         ("tools", JDict [("listChanged", JBool true)])]);
      ("serverInfo", get_server_info)
    ]))
  else if py_eq_str method "tools/list" then
    id <- lift (py_get message "id" JNull) ;;
    ret (result_response id (JDict [
      ("tools", JList get_available_tools)
    ]))
  else if py_eq_str method "tools/call" then
    params <- lift (py_get message "params" (JDict [])) ;;
    tool_name <- lift (py_get params "name" JNull) ;;
    arguments <- lift (py_get params "arguments" (JDict [])) ;;
    result <- handle_tool_call self tool_name arguments ;;
    id <- lift (py_get message "id" JNull) ;;
    ret (result_response id (JDict [
      ("content", JList [
         JDict [
           ("type", JStr "text");
           ("text", JStr (json_dumps py (Some 2) result))
         ]])
    ]))
  else
    id <- lift (py_get message "id" JNull) ;;
    ret (error_response id (-32601) ("Method not found: " ++ format py method)).

Definition handle_message (self : ENSMCPServer) (message : json) : M json :=
  try_except
    (handle_message_body self message)
    (fun e =>
       id <- lift (py_get message "id" JNull) ;;
       ret (error_response id (-32603) ("Internal error: " ++ str_exn e))).

(* ----------------------------------------------------------------- *)
(** *** run_stdio

    Standard input is the list of lines still to be read; [readline]
    returns the empty string once the list is exhausted.  Interrupts
    ([KeyboardInterrupt]) are asynchronous and not part of the model. *)

Definition parse_error_response : json :=
  JDict [
    ("error", JDict [
       ("code", JInt (-32700));
       ("message", JStr "Parse error")])
  ].

(** One pass through the body of [while True], given a non-empty line. *)
Definition serve_line (self : ENSMCPServer) (line : string) : M unit :=
  try_except_cls is_JSONDecodeError
    (message <- lift (json_loads py (str_strip py line)) ;;
     response <- handle_message self message ;;
     emit (Stdout (json_dumps py None response)))
    (fun e =>
       emit (LogError ("Invalid JSON received: " ++ str_exn e)) ;;
       emit (Stdout (json_dumps py None parse_error_response))).

(** The [while True] loop. *)
Fixpoint serve_forever (self : ENSMCPServer) (stdin : list string) : M unit :=
  match stdin with
  | [] => ret tt
  | line :: rest =>
      if PyStr.is_empty line then ret tt
      else serve_line self line ;; serve_forever self rest
  end.

Definition run_stdio (self : ENSMCPServer) (stdin : list string) : M unit :=
  emit (LogInfo "Starting ENS MCP Server with stdio transport") ;;
  try_except
    (serve_forever self stdin)
    (fun e => emit (LogError ("Server error: " ++ str_exn e))) ;;
  emit (LogInfo "ENS MCP Server stopped").

(* ----------------------------------------------------------------- *)
(** *** test_server

    The smoke test behind [--transport test].  [print] is the same event as
    in [run_stdio]; whether the stream is flushed is not observed. *)

Definition test_server (server : ENSMCPServer) : M unit :=
  emit (Stdout "🧪 Testing ENS MCP Server") ;;
  emit (Stdout (py_repeat "=" 50)) ;;
  emit (Stdout (nl ++ "📍 Testing ENS Resolution:")) ;;
  result <- resolve_ens_name server (JStr "vitalik.eth") (JInt 60) ;;
  emit (Stdout ("vitalik.eth -> " ++ json_dumps py (Some 2) result)) ;;
  emit (Stdout (nl ++ "🔄 Testing Reverse Resolution:")) ;;
  success <- lift (py_subscript result "success") ;;
  proceed <-
    (if py_truthy success then
       address <- lift (py_subscript result "address") ;;
       ret (py_truthy address)
     else ret false) ;;
  (if proceed : bool then
     address <- lift (py_subscript result "address") ;;
     reverse_result <- reverse_resolve_address server address ;;
     shown <- lift (py_subscript result "address") ;;
     emit (Stdout (format py shown ++ " -> "
                   ++ json_dumps py (Some 2) reverse_result))
   else ret tt) ;;
  emit (Stdout (nl ++ "📝 Testing Text Records:")) ;;
  text_result <- get_ens_text_record server (JStr "vitalik.eth") (JStr "url") ;;
  emit (Stdout ("vitalik.eth url -> " ++ json_dumps py (Some 2) text_result)) ;;
  emit (Stdout (nl ++ "📊 Testing Comprehensive Info:")) ;;
  info_result <- get_ens_info server (JStr "vitalik.eth") ;;
  emit (Stdout ("vitalik.eth info -> " ++ json_dumps py (Some 2) info_result)) ;;
  emit (Stdout (nl ++ "✅ Testing completed!")).

(* ----------------------------------------------------------------- *)
(** *** main

    From the parsed arguments on: [argparse] has already produced
    [args.rpc_url] and [args.transport], the latter one of its two choices. *)

Definition main (args_rpc_url args_transport : string) (stdin : list string) : M unit :=
  server <- init args_rpc_url ;;
  if String.eqb args_transport "stdio" then
    run_stdio server stdin
  else if String.eqb args_transport "test" then
    test_server server
  else ret tt.

End Server.

(* ================================================================= *)
(** ** class ENSMCPClient (test_client.py)

    The test client, up to the message each method hands to
    [send_message]; the pipe to the server process is not modelled.  A
    method returns that message and the client with its counter advanced. *)

Module Client.

Record ENSMCPClient : Type := {
  server_script : string;
  message_id : Z
}.

(** [ENSMCPClient.__init__] *)
Definition init (script : string) : ENSMCPClient :=
  {| server_script := script; message_id := 0 |}.

Definition get_next_id (self : ENSMCPClient) : Z * ENSMCPClient :=
  let self := {| server_script := server_script self;
                 message_id := message_id self + 1 |} in
  (message_id self, self).

(** The message [start_server] sends once the process runs. *)
Definition start_server (self : ENSMCPClient) : json * ENSMCPClient :=
  let (id, self) := get_next_id self in
  (JDict [
     ("jsonrpc", JStr "2.0");
     ("id", JInt id);
     ("method", JStr "initialize");
     ("params", JDict [
        ("protocolVersion", JStr "2024-11-05");
        ("capabilities", JDict [("tools", JDict [])]);
        ("clientInfo", JDict [
           ("name", JStr "ENS Test Client");
           ("version", JStr "1.0.0")])])
   ], self).

Definition list_tools (self : ENSMCPClient) : json * ENSMCPClient :=
  let (id, self) := get_next_id self in
  (JDict [
     ("jsonrpc", JStr "2.0");
     ("id", JInt id);
     ("method", JStr "tools/list")
   ], self).

Definition call_tool (self : ENSMCPClient) (tool_name : string) (arguments : dict)
  : json * ENSMCPClient :=
  let (id, self) := get_next_id self in
  (JDict [
     ("jsonrpc", JStr "2.0");
     ("id", JInt id);
     ("method", JStr "tools/call");
     ("params", JDict [
        ("name", JStr tool_name);
        ("arguments", JDict arguments)])
   ], self).

Definition resolve_ens_name (self : ENSMCPClient) (ens_name : string) (coin_type : Z)
  : json * ENSMCPClient :=
  call_tool self "resolve_ens_name"
            [("ens_name", JStr ens_name); ("coin_type", JInt coin_type)].

Definition reverse_resolve_address (self : ENSMCPClient) (address : string)
  : json * ENSMCPClient :=
  call_tool self "reverse_resolve_address" [("address", JStr address)].

Definition get_ens_text_record (self : ENSMCPClient) (ens_name key : string)
  : json * ENSMCPClient :=
  call_tool self "get_ens_text_record"
            [("ens_name", JStr ens_name); ("key", JStr key)].

Definition get_ens_info (self : ENSMCPClient) (ens_name : string)
  : json * ENSMCPClient :=
  call_tool self "get_ens_info" [("ens_name", JStr ens_name)].

End Client.

(* ================================================================= *)
(** ** Observations on results *)

(** [m], run from trace [t], returns a value satisfying [P]. *)
Definition returns {A} (m : M A) (t : trace) (P : A -> Prop) : Prop :=
  exists a t', m t = (Ok a, t') /\ P a.

(** The Result Envelope invariant: [success] is a boolean; when true there
    is no [error] and there is a [timestamp]; when false there is an [error]
    and no [timestamp]. *)
Definition envelope_ok (r : json) : bool :=
  match field "success" r with
  | Some (JBool true) => negb (has_field "error" r) && has_field "timestamp" r
  | Some (JBool false) => has_field "error" r && negb (has_field "timestamp" r)
  | _ => false
  end.

(** A Response carries exactly one of [result] and [error], and an [id]. *)
Definition response_ok (r : json) : bool :=
  has_field "id" r && xorb (has_field "result" r) (has_field "error" r).

(** A protocol-layer error: the Response-level [error{code, message}]. *)
Definition protocol_error (r : json) : bool :=
  match field "error" r with
  | Some (JDict [("code", JInt _); ("message", JStr _)]) => negb (has_field "result" r)
  | _ => false
  end.

(** Every envelope of a domain operation names what it was asked about. *)
Definition names_subject (r : json) : bool :=
  has_field "ens_name" r || has_field "address" r.

(** What holds of every envelope a domain operation returns. *)
Definition domain_envelope (r : json) : Prop :=
  envelope_ok r = true /\ names_subject r = true.

(** [message.get("id")] on a request object. *)
Definition request_id (d : dict) : json :=
  match dict_get "id" d with
  | Some v => v
  | None => JNull
  end.

(** The [required] list of a tool's [inputSchema] in [get_available_tools]. *)
Definition required_keys (tool : string) : list string :=
  match find (fun d => match field "name" d with
                       | Some n => py_eq_str n tool
                       | None => false
                       end) get_available_tools with
  | Some d =>
      match field "inputSchema" d with
      | Some schema =>
          match field "required" schema with
          | Some (JList ks) =>
              flat_map (fun k => match k with JStr s => [s] | _ => [] end) ks
          | _ => []
          end
      | None => []
      end
  | None => []
  end.

Definition tool_names : list string :=
  ["resolve_ens_name"; "reverse_resolve_address"; "get_ens_text_record"; "get_ens_info"].

(** The first of [keys] that the dict lacks. *)
Definition first_missing (keys : list string) (args : dict) : option string :=
  find (fun k => match dict_get k args with Some _ => false | None => true end) keys.

(** A sub-lookup of [get_ens_info] seen from outside: its value, or null. *)
Definition degraded {A} (render : A -> json) (outcome : exc A) : json :=
  match outcome with
  | Ok a => render a
  | Raise _ => JNull
  end.

(** The text records [get_ens_info] reports: for each key in order, the
    value when the lookup returned a non-empty one. *)
Definition reported_text_records (E : ENS) (name : string) (keys : list string) : dict :=
  flat_map (fun key =>
              match ens_get_text E name key with
              | Ok (Some v) => if PyStr.is_empty v then [] else [(key, JStr v)]
              | _ => []
              end) keys.

(** The lines printed to standard output, oldest first. *)
Definition printed (t : trace) : list string :=
  flat_map (fun ev => match ev with Stdout line => [line] | _ => [] end) t.

(** A computation that prints nothing, however it ends. *)
Definition quiet {A} (m : M A) : Prop :=
  forall t, printed (snd (m t)) = printed t.

(** The shape [test_server] relies on in what [resolve_ens_name] returns:
    an object with a boolean [success], and an [address] whenever it is true. *)
Definition resolve_shape (r : json) : Prop :=
  exists d,
    r = JDict d /\
    (dict_get "success" d = Some (JBool false) \/
     (dict_get "success" d = Some (JBool true) /\
      exists address, dict_get "address" d = Some address)).

(** The [name] fields of the descriptors [tools/list] returns. *)
Definition advertised_names : list string :=
  flat_map (fun d => match field "name" d with
                     | Some (JStr n) => [n]
                     | _ => []
                     end) get_available_tools.

(** The [default] the [inputSchema] of [tool] declares for property [key]. *)
Definition advertised_default (tool key : string) : option json :=
  match find (fun d => match field "name" d with
                       | Some n => py_eq_str n tool
                       | None => false
                       end) get_available_tools with
  | Some d =>
      match field "inputSchema" d with
      | Some schema =>
          match field "properties" schema with
          | Some properties =>
              match field key properties with
              | Some property => field "default" property
              | None => None
              end
          | None => None
          end
      | None => None
      end
  | None => None
  end.

(** The text block [tools/call] wraps an envelope in. *)
Definition content_of (py : Runtime) (envelope : json) : json :=
  JDict [("content", JList [JDict [
     ("type", JStr "text");
     ("text", JStr (json_dumps py (Some 2) envelope))]])].

(** A line the loop can answer: non-empty, and either one on which
    [json.loads] raises [JSONDecodeError] or one that parses to a JSON
    object. *)
Definition request_line (py : Runtime) (line : string) : bool :=
  negb (PyStr.is_empty line) &&
  match json_loads py (str_strip py line) with
  | Ok (JDict _) => true
  | Ok _ => false
  | Raise e => is_JSONDecodeError e
  end.

(* ================================================================= *)
(** ** A concrete runtime and collaborator

    Stand-ins for the Python runtime and the chain client, used to run the
    server on concrete requests. *)

Module Demo.

Definition dq : string := String (ascii_of_nat 34) EmptyString.

Definition string_of_Z (z : Z) : string :=
  NilZero.string_of_int (Z.to_int z).

(** Compact rendering with Python's default separators; strings are quoted
    without escaping and the indent is ignored. *)
Fixpoint dumps (j : json) : string :=
  match j with
  | JNull => "null"
  | JBool true => "true"
  | JBool false => "false"
  | JInt z => string_of_Z z
  | JFloat _ => "<float>"
  | JStr s => dq ++ s ++ dq
  | JList l =>
      "[" ++ (fix items (l : list json) : string :=
                match l with
                | [] => ""
                | [x] => dumps x
                | x :: rest => dumps x ++ ", " ++ items rest
                end) l ++ "]"
  | JDict d =>
      "{" ++ (fix items (d : list (string * json)) : string :=
                match d with
                | [] => ""
                | [(k, v)] => dq ++ k ++ dq ++ ": " ++ dumps v
                | (k, v) :: rest => dq ++ k ++ dq ++ ": " ++ dumps v ++ ", " ++ items rest
                end) d ++ "}"
  end.

Definition repr (j : json) : string :=
  match j with
  | JNull => "None"
  | JBool true => "True"
  | JBool false => "False"
  | JInt z => string_of_Z z
  | JStr s => "'" ++ s ++ "'"
  | _ => "<object>"
  end.

Definition vitalik : string := "0xd8dA6BF26964aF9D7eEd9e03E53415D37aA96045".

Definition the_ens : ENS := {|
  ens_address := fun name _ =>
    if String.eqb name "vitalik.eth" then Ok (Some vitalik)
    else if String.eqb name "name.eth" then Ok (Some "0x0000000000000000000000000000000000000001")
    else if String.eqb name "bad..eth" then Raise (ENSException "Invalid name")
    else Ok None;
  ens_name := fun address =>
    if String.eqb address vitalik then Ok (Some "vitalik.eth") else Ok None;
  ens_get_text := fun name key =>
    if String.eqb name "vitalik.eth" then
      if String.eqb key "url" then Ok (Some "https://vitalik.ca")
      else if String.eqb key "email" then Ok (Some "")
      else if String.eqb key "twitter" then Raise (OtherException "TimeoutError" "timed out")
      else if String.eqb key "github" then Ok (Some "vbuterin")
      else Ok None
    else Ok None;
  ens_owner := fun name =>
    if String.eqb name "vitalik.eth" then Raise (OtherException "TimeoutError" "timed out")
    else Ok None;
  ens_resolver := fun name =>
    if String.eqb name "vitalik.eth" then
      Ok (Some {| contract_address := Some "0x4976fb03C32e5B8cfe2b6cCB31c09Ba78EBaBa41" |})
    else Ok None
|}.

Definition the_w3 : Web3 := {|
  is_connected := true;
  is_address := fun s => (String.length s =? 42)%nat && String.prefix "0x" s;
  to_checksum_address := fun s => Ok s
|}.

Definition is_digit (c : ascii) : bool :=
  let n := nat_of_ascii c in ((48 <=? n) && (n <=? 57))%nat.

Fixpoint all_digits (s : string) : bool :=
  match s with
  | EmptyString => true
  | String c rest => is_digit c && all_digits rest
  end.

(** An integer literal: digits without a leading zero. *)
Definition is_integer_literal (s : string) : bool :=
  match s with
  | EmptyString => false
  | String c rest =>
      all_digits s && (negb (Ascii.eqb c "0"%char) || PyStr.is_empty rest)
  end.

(** A parser for the few texts the examples use: [{}], [[]] and
    non-negative integers.  An integer of more than 4300 digits raises
    [ValueError], as CPython's integer conversion does; any other text is
    reported as not being JSON. *)
Definition loads (text : string) : exc json :=
  if String.eqb text "{}" then Ok (JDict [])
  else if String.eqb text "[]" then Ok (JList [])
  else if is_integer_literal text then
    if (4300 <? String.length text)%nat then
      Raise (OtherException "ValueError"
               ("Exceeds the limit (4300 digits) for integer string conversion: value has "
                ++ string_of_Z (Z.of_nat (String.length text))
                ++ " digits; use sys.set_int_max_str_digits() to increase the limit"))
    else
      match NilZero.int_of_string text with
      | Some i => Ok (JInt (Z.of_int i))
      | None => Raise (JSONDecodeError "Expecting value: line 1 column 1 (char 0)")
      end
  else Raise (JSONDecodeError "Expecting value: line 1 column 1 (char 0)").

Definition py : Runtime := {|
  str_strip := PyStr.strip;
  str_lower := PyStr.lower;
  py_repr := repr;
  json_loads := loads;
  json_dumps := fun _ j => dumps j;
  utcnow_isoformat := "2024-01-01T00:00:00";
  new_web3 := fun _ => Ok the_w3;
  ens_from_web3 := fun _ => Ok the_ens
|}.

Definition server : ENSMCPServer := {|
  rpc_url := "https://eth-mainnet.g.alchemy.com/v2/demo";
  w3 := Some the_w3;
  ens := Some the_ens
|}.

(** A [tools/call] request for [tool] with the given arguments. *)
Definition tools_call (id : json) (tool : string) (arguments : dict) : json :=
  JDict [
    ("jsonrpc", JStr "2.0");
    ("id", id);
    ("method", JStr "tools/call");
    ("params", JDict [("name", JStr tool); ("arguments", JDict arguments)])
  ].

End Demo.

(* ================================================================= *)
(** ** Running the server on concrete requests *)

Example demo_init :
  init Demo.py "https://eth-mainnet.g.alchemy.com/v2/demo" [] =
  (Ok Demo.server,
   [LogInfo "Successfully connected to Ethereum node at https://eth-mainnet.g.alchemy.com/v2/demo"]).
Proof. reflexivity. Qed.

Example demo_resolve :
  resolve_ens_name Demo.py Demo.server (JStr "vitalik.eth") (JInt 60) [] =
  (Ok (JDict [("success", JBool true); ("ens_name", JStr "vitalik.eth");
              ("address", JStr Demo.vitalik); ("coin_type", JInt 60);
              ("timestamp", JStr "2024-01-01T00:00:00")]),
   [EnsAddress "vitalik.eth" None]).
Proof. reflexivity. Qed.

Example demo_resolve_unregistered :
  resolve_ens_name Demo.py Demo.server (JStr "definitely-unregistered-xyz123.eth") (JInt 60) [] =
  (Ok (JDict [("success", JBool false);
              ("error", JStr "No address found for ENS name: definitely-unregistered-xyz123.eth");
              ("ens_name", JStr "definitely-unregistered-xyz123.eth");
              ("coin_type", JInt 60)]),
   [EnsAddress "definitely-unregistered-xyz123.eth" None]).
Proof. reflexivity. Qed.

Example demo_reverse_malformed :
  reverse_resolve_address Demo.py Demo.server (JStr "not-an-address") [] =
  (Ok (JDict [("success", JBool false);
              ("error", JStr "Invalid Ethereum address format: not-an-address");
              ("address", JStr "not-an-address")]),
   [W3IsAddress "not-an-address"]).
Proof. reflexivity. Qed.

Example demo_parse_error_line :
  run_stdio Demo.py Demo.server ["not json" ++ String (ascii_of_nat 10) ""] [] =
  (Ok tt,
   [LogInfo "Starting ENS MCP Server with stdio transport";
    LogError "Invalid JSON received: Expecting value: line 1 column 1 (char 0)";
    Stdout ("{" ++ Demo.dq ++ "error" ++ Demo.dq ++ ": {" ++ Demo.dq ++ "code" ++ Demo.dq
            ++ ": -32700, " ++ Demo.dq ++ "message" ++ Demo.dq ++ ": " ++ Demo.dq
            ++ "Parse error" ++ Demo.dq ++ "}}");
    LogInfo "ENS MCP Server stopped"]).
Proof. vm_compute. reflexivity. Qed.

(* ================================================================= *)
(** ** Proof automation *)

(** Expose the trace-passing under the monad's operations. *)
Ltac run_monad :=
  unfold try_except, bind, lift, call, ret, py_strip_lower, py_strip.

(** Close a goal [exists r t', m t = (Ok r, t') /\ ...] once [m t] computes. *)
Ltac done_envelope :=
  simpl; eexists _, _; repeat split; reflexivity.

(* ================================================================= *)
(** ** The stand-ins for [strip] and [lower]

    Normalising with the demo runtime's stand-ins is idempotent: the
    condition under which [resolve_ens_name] cannot tell a raw name from
    its normalised form is met by a concrete runtime on every name. *)

Section PyStrFacts.

Import PyStr.

Lemma isspace_lower_char (c : ascii) : isspace (lower_char c) = isspace c.
Proof. destruct c as [[] [] [] [] [] [] [] []]; reflexivity. Qed.

Lemma lower_char_idem (c : ascii) : lower_char (lower_char c) = lower_char c.
Proof. destruct c as [[] [] [] [] [] [] [] []]; reflexivity. Qed.

Lemma is_empty_lower (s : string) : is_empty (lower s) = is_empty s.
Proof. destruct s; reflexivity. Qed.

Lemma lower_idem (s : string) : lower (lower s) = lower s.
Proof.
  induction s as [|c s IH]; simpl.
  - reflexivity.
  - now rewrite lower_char_idem, IH.
Qed.

Lemma lower_lstrip (s : string) : lower (lstrip s) = lstrip (lower s).
Proof.
  induction s as [|c s IH]; simpl.
  - reflexivity.
  - rewrite isspace_lower_char. destruct (isspace c); [exact IH | reflexivity].
Qed.

Lemma lower_rstrip (s : string) : lower (rstrip s) = rstrip (lower s).
Proof.
  induction s as [|c s IH]; simpl.
  - reflexivity.
  - rewrite isspace_lower_char, <- IH, is_empty_lower.
    destruct (isspace c && is_empty (rstrip s)); reflexivity.
Qed.

Lemma lower_strip (s : string) : lower (strip s) = strip (lower s).
Proof. unfold strip. now rewrite lower_lstrip, lower_rstrip. Qed.

Lemma lstrip_idem (s : string) : lstrip (lstrip s) = lstrip s.
Proof.
  induction s as [|c s IH]; simpl.
  - reflexivity.
  - destruct (isspace c) eqn:Hc; [exact IH | simpl; now rewrite Hc].
Qed.

Lemma rstrip_idem (s : string) : rstrip (rstrip s) = rstrip s.
Proof.
  induction s as [|c s IH]; simpl.
  - reflexivity.
  - destruct (isspace c && is_empty (rstrip s)) eqn:Hc; simpl.
    + reflexivity.
    + now rewrite IH, Hc.
Qed.

(** A string without trailing blanks still has none after [lstrip]. *)
Lemma rstrip_lstrip_fixed (s : string) :
  rstrip s = s -> rstrip (lstrip s) = lstrip s.
Proof.
  induction s as [|c s IH]; simpl; intro H.
  - reflexivity.
  - destruct (isspace c) eqn:Hc; simpl in *.
    + destruct (is_empty (rstrip s)); [discriminate H |].
      injection H as H. exact (IH H).
    + rewrite Hc in *. simpl in *. exact H.
Qed.

Lemma strip_idem (s : string) : strip (strip s) = strip s.
Proof.
  unfold strip.
  rewrite (rstrip_lstrip_fixed (rstrip s) (rstrip_idem s)).
  apply lstrip_idem.
Qed.

(** Normalising a name twice is normalising it once. *)
Lemma normalize_idem (s : string) :
  lower (strip (lower (strip s))) = lower (strip s).
Proof. now rewrite <- lower_strip, strip_idem, lower_idem. Qed.

End PyStrFacts.

(* ================================================================= *)
(** ** Domain operations *)

(** The constructor hands out only servers whose [w3] and [ens] are set:
    the [not self.ens] branches of the operations are dead for them. *)
Lemma init_initialized (py : Runtime) (url : string) (t t' : trace)
      (self : ENSMCPServer) :
  init py url t = (Ok self, t') ->
  exists W E, w3 self = Some W /\ ens self = Some E.
Proof.
  unfold init, initialize_web3, try_except, bind, lift, emit, raise, ret. simpl.
  destruct (new_web3 py url) as [W|e]; simpl; [| discriminate].
  destruct (is_connected W); simpl; [| discriminate].
  destruct (ens_from_web3 py W) as [E|e]; simpl; [| discriminate].
  intro H. injection H as <- _. exists W, E. split; reflexivity.
Qed.

(** [resolve_ens_name] on an initialised server and a string name: one
    collaborator call, on the normalised name, and the envelope that its
    outcome decides. *)
Lemma resolve_ens_name_run
      (py : Runtime) (self : ENSMCPServer) (E : ENS)
      (name : string) (coin_type : json) (t : trace) :
  ens self = Some E ->
  let n := str_lower py (str_strip py name) in
  let passed := if py_eq_60 coin_type then None else Some coin_type in
  resolve_ens_name py self (JStr name) coin_type t =
  (Ok match ens_address E n passed with
      | Ok address =>
          if truthy address then
            JDict [("success", JBool true);
                   ("ens_name", JStr n);
                   ("address", opt_json address);
                   ("coin_type", coin_type);
                   ("timestamp", JStr (utcnow_isoformat py))]
          else
            resolve_failure ("No address found for ENS name: " ++ n)
                            (JStr n) coin_type
      | Raise e =>
          resolve_failure
            ((if is_ENSException e then "ENS error: " else "Unexpected error: ")
             ++ str_exn e)
            (JStr n) coin_type
      end,
   (t ++ [EnsAddress n passed])%list).
Proof.
  intros HE n passed. unfold resolve_ens_name. rewrite HE.
  run_monad. unfold resolve_except, ret. fold n. subst passed.
  destruct (py_eq_60 coin_type);
    match goal with |- context [ens_address ?e ?x ?c] =>
      destruct (ens_address e x c) as [address|err] end;
    simpl; try destruct (truthy address); try destruct (is_ENSException err);
    reflexivity.
Qed.



(** C8. For every name and key, [get_ens_text_record] makes one [get_text]
    call with the normalised name and key.  Whatever value the collaborator
    returns, present, empty or none, the envelope is [success: true] with
    [ens_name], [key], [value] (and the timestamp); the envelope is
    [success: false] exactly when the collaborator raised. *)
Theorem get_ens_text_record_outcome
        (py : Runtime) (self : ENSMCPServer) (E : ENS)
        (name key : string) (t : trace) :
  ens self = Some E ->
  let n := str_lower py (str_strip py name) in
  let k := str_lower py (str_strip py key) in
  get_ens_text_record py self (JStr name) (JStr key) t =
  (Ok match ens_get_text E n k with
      | Ok value =>
          JDict [("success", JBool true);
                 ("ens_name", JStr n);
                 ("key", JStr k);
                 ("value", opt_json value);
                 ("timestamp", JStr (utcnow_isoformat py))]
      | Raise e =>
          JDict [("success", JBool false);
                 ("error", JStr ("Error getting text record: " ++ str_exn e));
                 ("ens_name", JStr n);
                 ("key", JStr k)]
      end,
   (t ++ [EnsGetText n k])%list).
Proof.
  intros HE n k. unfold get_ens_text_record. rewrite HE.
  unfold try_except, bind, lift, call, py_strip_lower, text_except, ret. simpl.
  fold n k. destruct (ens_get_text E n k); reflexivity.
Qed.

Lemma get_ens_text_record_outcome_witness :
  ens Demo.server = Some Demo.the_ens /\
  get_ens_text_record Demo.py Demo.server (JStr " Vitalik.eth") (JStr "Avatar ") [] =
  (Ok (JDict [("success", JBool true);
              ("ens_name", JStr "vitalik.eth");
              ("key", JStr "avatar");
              ("value", JNull);
              ("timestamp", JStr "2024-01-01T00:00:00")]),
   [EnsGetText "vitalik.eth" "avatar"]).
Proof.
  split; [reflexivity |].
  exact (get_ens_text_record_outcome Demo.py Demo.server Demo.the_ens
           " Vitalik.eth" "Avatar " [] eq_refl).
Defined.

(** C6. For every address that fails the collaborator's format check after
    trimming, [reverse_resolve_address] returns
    [{success: false, error: "Invalid Ethereum address format: <address>",
      address: <address>}], [<address>] being the trimmed input, and the only
    call it has made is the format check: neither the checksum conversion
    nor the reverse lookup [ens.name] is reached. *)
Theorem reverse_resolve_malformed
        (py : Runtime) (self : ENSMCPServer) (W : Web3) (E : ENS)
        (address : string) (t : trace) :
  w3 self = Some W ->
  ens self = Some E ->
  is_address W (str_strip py address) = false ->
  reverse_resolve_address py self (JStr address) t =
  (Ok (JDict [("success", JBool false);
              ("error", JStr ("Invalid Ethereum address format: "
                              ++ str_strip py address));
              ("address", JStr (str_strip py address))]),
   (t ++ [W3IsAddress (str_strip py address)])%list).
Proof.
  intros HW HE Hbad. unfold reverse_resolve_address. rewrite HW, HE.
  unfold try_except, bind, lift, call, py_strip, ret. simpl.
  rewrite Hbad. reflexivity.
Qed.

Lemma reverse_resolve_malformed_witness :
  w3 Demo.server = Some Demo.the_w3 /\
  ens Demo.server = Some Demo.the_ens /\
  is_address Demo.the_w3 (str_strip Demo.py " not-an-address ") = false /\
  reverse_resolve_address Demo.py Demo.server (JStr " not-an-address ") [] =
  (Ok (JDict [("success", JBool false);
              ("error", JStr "Invalid Ethereum address format: not-an-address");
              ("address", JStr "not-an-address")]),
   [W3IsAddress "not-an-address"]).
Proof.
  repeat (split; [reflexivity |]).
  exact (reverse_resolve_malformed Demo.py Demo.server Demo.the_w3 Demo.the_ens
           " not-an-address " [] eq_refl eq_refl eq_refl).
Defined.

(* ----------------------------------------------------------------- *)
(** *** Dictionaries built by [get_ens_info] *)

Lemma dict_get_app (key : string) (d d' : dict) :
  dict_get key (d ++ d')%list =
  match dict_get key d with
  | Some v => Some v
  | None => dict_get key d'
  end.
Proof.
  induction d as [|[k v] d IH]; simpl.
  - reflexivity.
  - destruct (String.eqb k key); [reflexivity | exact IH].
Qed.

(** Assigning under a key the dict lacks appends the entry. *)
Lemma dict_set_fresh (d : dict) (key : string) (v : json) :
  dict_get key d = None -> dict_set d key v = (d ++ [(key, v)])%list.
Proof.
  induction d as [|[k w] d IH]; simpl; intro H.
  - reflexivity.
  - destruct (String.eqb k key); [discriminate H |].
    now rewrite IH.
Qed.

Lemma reported_text_records_absent (E : ENS) (name key : string) (keys : list string) :
  existsb (String.eqb key) keys = false ->
  dict_get key (reported_text_records E name keys) = None.
Proof.
  induction keys as [|k keys IH]; simpl; intro H.
  - reflexivity.
  - apply orb_false_elim in H as [Hk Hrest].
    unfold reported_text_records in *. rewrite dict_get_app, (IH Hrest).
    rewrite String.eqb_sym in Hk.
    destruct (ens_get_text E name k) as [[v|]|e]; simpl; try reflexivity.
    destruct (PyStr.is_empty v); simpl; [reflexivity | now rewrite Hk].
Qed.

(** What the reported mapping holds under each key. *)
Lemma reported_text_records_lookup (E : ENS) (name key : string) (keys : list string) :
  dict_get key (reported_text_records E name keys) =
  if existsb (String.eqb key) keys then
    match ens_get_text E name key with
    | Ok (Some v) => if PyStr.is_empty v then None else Some (JStr v)
    | _ => None
    end
  else None.
Proof.
  induction keys as [|k keys IH]; simpl.
  - reflexivity.
  - change (reported_text_records E name (k :: keys))
      with ((match ens_get_text E name k with
             | Ok (Some v) => if PyStr.is_empty v then [] else [(k, JStr v)]
             | _ => []
             end) ++ reported_text_records E name keys)%list.
    rewrite dict_get_app, IH.
    destruct (String.eqb_spec key k) as [->|Hne]; simpl.
    + destruct (ens_get_text E name k) as [[v|]|e]; simpl;
        try (destruct (existsb (String.eqb k) keys); reflexivity).
      destruct (PyStr.is_empty v); simpl.
      * destruct (existsb (String.eqb k) keys); reflexivity.
      * now rewrite String.eqb_refl.
    + assert (Hkk : String.eqb k key = false)
        by (apply String.eqb_neq; congruence).
      destruct (ens_get_text E name k) as [[v|]|e]; simpl; try reflexivity.
      destruct (PyStr.is_empty v); simpl; [reflexivity | now rewrite Hkk].
Qed.

(** The loop visits every key once, in order, whatever the lookups do, and
    adds exactly the reported entries. *)
Lemma collect_text_records_run (E : ENS) (name : string) (keys : list string) :
  NoDup keys ->
  forall (acc : dict) (t : trace),
    (forall k, In k keys -> dict_get k acc = None) ->
    collect_text_records E name keys acc t =
    (Ok (acc ++ reported_text_records E name keys)%list,
     (t ++ map (EnsGetText name) keys)%list).
Proof.
  induction 1 as [|key keys Hnotin Hnodup IH]; intros acc t Hfresh; simpl.
  - now rewrite !app_nil_r.
  - assert (Hkey : dict_get key acc = None) by (apply Hfresh; now left).
    assert (Hrest : forall k, In k keys -> dict_get k acc = None)
      by (intros k Hk; apply Hfresh; now right).
    change (reported_text_records E name (key :: keys))
      with ((match ens_get_text E name key with
             | Ok (Some v) => if PyStr.is_empty v then [] else [(key, JStr v)]
             | _ => []
             end) ++ reported_text_records E name keys)%list.
    unfold bind, try_except, call, ret.
    destruct (ens_get_text E name key) as [[v|]|e]; simpl;
      try (rewrite (IH acc _ Hrest), <- app_assoc; reflexivity).
    destruct (PyStr.is_empty v); simpl.
    + now rewrite (IH acc _ Hrest), <- app_assoc.
    + rewrite (dict_set_fresh _ _ _ Hkey), IH, <- !app_assoc; [reflexivity |].
      intros k Hk. rewrite dict_get_app, (Hrest k Hk). simpl.
      destruct (String.eqb_spec key k) as [->|]; [contradiction | reflexivity].
Qed.

Lemma common_keys_nodup : NoDup common_keys.
Proof.
  unfold common_keys.
  repeat (constructor; [simpl; intuition discriminate |]). constructor.
Qed.

(** [get_ens_info] on an initialised server and a string: the three
    sub-lookups and the seven text-record lookups all run, each degrading on
    its own, and the envelope is a success. *)
Lemma get_ens_info_run (py : Runtime) (self : ENSMCPServer) (E : ENS)
      (name : string) (t : trace) :
  ens self = Some E ->
  let n := str_lower py (str_strip py name) in
  get_ens_info py self (JStr name) t =
  (Ok (JDict [("success", JBool true);
              ("ens_name", JStr n);
              ("timestamp", JStr (utcnow_isoformat py));
              ("address", degraded opt_json (ens_address E n None));
              ("owner", degraded opt_json (ens_owner E n));
              ("resolver", degraded resolver_address (ens_resolver E n));
              ("text_records", JDict (reported_text_records E n common_keys))]),
   (t ++ [EnsAddress n None; EnsOwner n; EnsResolver n]
      ++ map (EnsGetText n) common_keys)%list).
Proof.
  intros HE n. unfold get_ens_info. rewrite HE.
  unfold try_except at 1 2. unfold bind at 1. unfold lift, py_strip_lower. fold n.
  unfold bind, try_except, call, ret.
  destruct (ens_address E n None), (ens_owner E n), (ens_resolver E n);
    cbn -[collect_text_records common_keys];
    rewrite (collect_text_records_run E n _ common_keys_nodup [] _
               (fun _ _ => eq_refl));
    cbn -[common_keys]; rewrite <- !app_assoc; reflexivity.
Qed.

(** C7. For every name, [get_ens_info] attempts each sub-lookup on its own:
    address, owner, resolver and the seven text-record keys are all called,
    in that order, whatever the earlier ones did.  A lookup that raises
    leaves [null] in its own field ([address], [owner], [resolver]) or no
    entry for its key, and nothing else changes: the envelope is
    [success: true] with every other field as its own lookup gave it.  The
    [text_records] mapping holds a key exactly when that key's lookup
    returned a non-empty value, with that value. *)
Theorem get_ens_info_degrades
        (py : Runtime) (self : ENSMCPServer) (E : ENS)
        (name : string) (t : trace) :
  ens self = Some E ->
  let n := str_lower py (str_strip py name) in
  let text_records := reported_text_records E n common_keys in
  get_ens_info py self (JStr name) t =
  (Ok (JDict [("success", JBool true);
              ("ens_name", JStr n);
              ("timestamp", JStr (utcnow_isoformat py));
              ("address", match ens_address E n None with
                          | Ok address => opt_json address
                          | Raise _ => JNull
                          end);
              ("owner", match ens_owner E n with
                        | Ok owner => opt_json owner
                        | Raise _ => JNull
                        end);
              ("resolver", match ens_resolver E n with
                           | Ok resolver => resolver_address resolver
                           | Raise _ => JNull
                           end);
              ("text_records", JDict text_records)]),
   (t ++ [EnsAddress n None; EnsOwner n; EnsResolver n]
      ++ map (EnsGetText n) common_keys)%list)
  /\
  forall key : string,
    dict_get key text_records =
    if existsb (String.eqb key) common_keys then
      match ens_get_text E n key with
      | Ok (Some value) => if PyStr.is_empty value then None else Some (JStr value)
      | Ok None => None
      | Raise _ => None
      end
    else None.
Proof.
  intros HE n text_records. split.
  - exact (get_ens_info_run py self E name t HE).
  - intro key. unfold text_records. rewrite reported_text_records_lookup.
    destruct (existsb (String.eqb key) common_keys); [| reflexivity].
    destruct (ens_get_text E n key) as [[v|]|e]; reflexivity.
Qed.

Lemma get_ens_info_degrades_witness :
  ens Demo.server = Some Demo.the_ens /\
  get_ens_info Demo.py Demo.server (JStr "vitalik.eth") [] =
  (Ok (JDict [("success", JBool true);
              ("ens_name", JStr "vitalik.eth");
              ("timestamp", JStr "2024-01-01T00:00:00");
              ("address", JStr Demo.vitalik);
              ("owner", JNull);
              ("resolver", JStr "0x4976fb03C32e5B8cfe2b6cCB31c09Ba78EBaBa41");
              ("text_records", JDict [("url", JStr "https://vitalik.ca");
                                      ("github", JStr "vbuterin")])]),
   [EnsAddress "vitalik.eth" None; EnsOwner "vitalik.eth"; EnsResolver "vitalik.eth";
    EnsGetText "vitalik.eth" "url"; EnsGetText "vitalik.eth" "email";
    EnsGetText "vitalik.eth" "twitter"; EnsGetText "vitalik.eth" "github";
    EnsGetText "vitalik.eth" "discord"; EnsGetText "vitalik.eth" "telegram";
    EnsGetText "vitalik.eth" "description"]).
Proof.
  split; [reflexivity |].
  exact (proj1 (get_ens_info_degrades Demo.py Demo.server Demo.the_ens
                  "vitalik.eth" [] eq_refl)).
Defined.

(* ----------------------------------------------------------------- *)
(** *** The envelope invariant *)

Lemma returns_weaken {A} (m : M A) (t : trace) (P Q : A -> Prop) :
  (forall a, P a -> Q a) -> returns m t P -> returns m t Q.
Proof. intros HPQ (a & t' & Hrun & HP). exists a, t'. auto. Qed.

Lemma resolve_ens_name_envelope (py : Runtime) (self : ENSMCPServer)
      (ens_name coin_type : json) (t : trace) :
  returns (resolve_ens_name py self ens_name coin_type) t domain_envelope.
Proof.
  unfold returns, domain_envelope, resolve_ens_name, resolve_except.
  destruct (ens self) as [E|]; [| done_envelope].
  run_monad. destruct ens_name; try done_envelope.
  destruct (py_eq_60 coin_type);
    match goal with |- context [ens_address ?e ?n ?c] =>
      destruct (ens_address e n c) as [address|err] end;
    simpl; try destruct (truthy address); try destruct (is_ENSException err);
    done_envelope.
Qed.

Lemma reverse_resolve_address_envelope (py : Runtime) (self : ENSMCPServer)
      (address : json) (t : trace) :
  returns (reverse_resolve_address py self address) t domain_envelope.
Proof.
  unfold returns, domain_envelope, reverse_resolve_address, reverse_except.
  destruct (w3 self) as [W|], (ens self) as [E|]; try done_envelope.
  run_monad. destruct address; try done_envelope.
  destruct (is_address W (str_strip py s)); [| done_envelope].
  simpl. destruct (to_checksum_address W (str_strip py s)) as [c|err];
    [| done_envelope].
  destruct (ens_name E c) as [n|err]; [| done_envelope].
  destruct (truthy n); done_envelope.
Qed.

Lemma get_ens_text_record_envelope (py : Runtime) (self : ENSMCPServer)
      (ens_name key : json) (t : trace) :
  returns (get_ens_text_record py self ens_name key) t domain_envelope.
Proof.
  unfold returns, domain_envelope, get_ens_text_record, text_except.
  destruct (ens self) as [E|]; [| done_envelope].
  run_monad. destruct ens_name; try done_envelope.
  destruct key; try done_envelope.
  match goal with |- context [ens_get_text ?e ?n ?k] =>
    destruct (ens_get_text e n k) end; done_envelope.
Qed.

Lemma get_ens_info_envelope (py : Runtime) (self : ENSMCPServer)
      (ens_name : json) (t : trace) :
  returns (get_ens_info py self ens_name) t domain_envelope.
Proof.
  unfold returns, domain_envelope.
  destruct (ens self) as [E|] eqn:HE.
  - destruct ens_name;
      try (unfold get_ens_info, info_except; rewrite HE; run_monad; done_envelope).
    rewrite (get_ens_info_run py self E s t HE). eexists _, _.
    repeat split; reflexivity.
  - unfold get_ens_info. rewrite HE. done_envelope.
Qed.

(** C2. Every Result Envelope the four domain operations produce, on any
    arguments and whatever the collaborator does, is of exactly one of two
    shapes: [success] true with no [error] field and a [timestamp], or
    [success] false with an [error] field and no [timestamp].  Each
    operation always returns such an envelope; none raises. *)
Theorem result_envelope_invariant
        (py : Runtime) (self : ENSMCPServer) (a b : json) (t : trace) :
  returns (resolve_ens_name py self a b) t (fun r => envelope_ok r = true) /\
  returns (reverse_resolve_address py self a) t (fun r => envelope_ok r = true) /\
  returns (get_ens_text_record py self a b) t (fun r => envelope_ok r = true) /\
  returns (get_ens_info py self a) t (fun r => envelope_ok r = true).
Proof.
  assert (Hweak : forall r, domain_envelope r -> envelope_ok r = true)
    by (intros r H; exact (proj1 H)).
  split; [| split; [| split]]; apply (returns_weaken _ _ _ _ Hweak).
  - apply resolve_ens_name_envelope.
  - apply reverse_resolve_address_envelope.
  - apply get_ens_text_record_envelope.
  - apply get_ens_info_envelope.
Qed.

(* ================================================================= *)
(** ** The router *)

(** [handle_tool_call] has a catch-all whose handler cannot raise. *)
Lemma handle_tool_call_total (py : Runtime) (self : ENSMCPServer)
      (tool_name arguments : json) (t : trace) :
  exists r t', handle_tool_call py self tool_name arguments t = (Ok r, t').
Proof.
  unfold handle_tool_call, try_except.
  match goal with |- context [match ?body t with _ => _ end] =>
    destruct (body t) as [[r|e] t'] end;
    eexists _, _; reflexivity.
Qed.

(** On a request object the handler of [handle_message] reads the id
    without raising, so the router is its body with every exception
    replaced by the internal-error Response. *)
Lemma handle_message_dict (py : Runtime) (self : ENSMCPServer)
      (d : dict) (t : trace) :
  handle_message py self (JDict d) t =
  match handle_message_body py self (JDict d) t with
  | (Ok r, t') => (Ok r, t')
  | (Raise e, t') =>
      (Ok (error_response (request_id d) (-32603)
                          ("Internal error: " ++ str_exn e)), t')
  end.
Proof.
  unfold handle_message, try_except.
  destruct (handle_message_body py self (JDict d) t) as [[r|e] t'];
    [reflexivity |].
  unfold bind, lift, py_get, ret, request_id.
  destruct (dict_get "id" d); reflexivity.
Qed.

(** Whatever the body returns is a Response that echoes [message.get("id")]
    and carries exactly one of [result] and [error]. *)
Lemma handle_message_body_response (py : Runtime) (self : ENSMCPServer)
      (d : dict) (t t' : trace) (r : json) :
  handle_message_body py self (JDict d) t = (Ok r, t') ->
  field "id" r = Some (request_id d) /\ response_ok r = true.
Proof.
  unfold handle_message_body, bind, lift, ret.
  assert (Hid : py_get (JDict d) "id" JNull = Ok (request_id d))
    by (unfold py_get, request_id; destruct (dict_get "id" d); reflexivity).
  rewrite Hid.
  destruct (py_get (JDict d) "method" JNull) as [method|e] eqn:Hm;
    [| discriminate].
  destruct (py_eq_str method "initialize");
    [intro H; injection H as <- _; split; reflexivity |].
  destruct (py_eq_str method "tools/list");
    [intro H; injection H as <- _; split; reflexivity |].
  destruct (py_eq_str method "tools/call");
    [| intro H; injection H as <- _; split; reflexivity].
  destruct (py_get (JDict d) "params" (JDict [])) as [params|e]; [| discriminate].
  destruct (py_get params "name" JNull) as [tool_name|e]; [| discriminate].
  destruct (py_get params "arguments" (JDict [])) as [arguments|e]; [| discriminate].
  destruct (handle_tool_call_total py self tool_name arguments t)
    as (result & t1 & ->).
  intro H; injection H as <- _; split; reflexivity.
Qed.

(** A request whose [method] is none of the three known ones is answered
    with the method-not-found Response, whatever type [method] has. *)
Lemma handle_message_unknown_method (py : Runtime) (self : ENSMCPServer)
      (d : dict) (t : trace) :
  let method := match dict_get "method" d with Some v => v | None => JNull end in
  py_eq_str method "initialize" = false ->
  py_eq_str method "tools/list" = false ->
  py_eq_str method "tools/call" = false ->
  handle_message py self (JDict d) t =
  (Ok (error_response (request_id d) (-32601)
                      ("Method not found: " ++ format py method)), t).
Proof.
  intros method H1 H2 H3.
  rewrite handle_message_dict.
  unfold handle_message_body, bind, lift, ret, py_get.
  assert (Hm : match dict_get "method" d with
               | Some v => Ok v
               | None => Ok JNull
               end = Ok method)
    by (unfold method; destruct (dict_get "method" d); reflexivity).
  rewrite Hm, H1, H2, H3.
  unfold request_id. destruct (dict_get "id" d); reflexivity.
Qed.

(** The body of [handle_message] on a request object raises in one
    situation only: [tools/call] with [params] present and not an object. *)
Lemma handle_message_body_raise_cases
        (py : Runtime) (self : ENSMCPServer) (d : dict) (t t' : trace) (e : exn) :
  handle_message_body py self (JDict d) t = (Raise e, t') ->
  dict_get "method" d = Some (JStr "tools/call") /\
  exists params,
    dict_get "params" d = Some params /\
    match params with JDict _ => false | _ => true end = true /\
    e = AttributeError (type_name params) "get" /\
    t' = t.
Proof.
  unfold handle_message_body, bind, lift, ret, py_get.
  destruct (dict_get "method" d) as [method|] eqn:Hm;
    [| destruct (dict_get "id" d); discriminate].
  destruct (py_eq_str method "initialize");
    [destruct (dict_get "id" d); discriminate |].
  destruct (py_eq_str method "tools/list");
    [destruct (dict_get "id" d); discriminate |].
  destruct (py_eq_str method "tools/call") eqn:Hcall;
    [| destruct (dict_get "id" d); discriminate].
  assert (method = JStr "tools/call") as ->.
  { destruct method; try discriminate Hcall.
    simpl in Hcall. apply String.eqb_eq in Hcall. now subst. }
  intro H. split; [reflexivity |]. revert H.
  destruct (dict_get "params" d) as [params|].
  - destruct params as [| b | z | f | s | l | p];
      try (intro H; injection H as <- <-; eexists; repeat split; reflexivity).
    destruct (dict_get "name" p), (dict_get "arguments" p); cbv beta iota;
      match goal with |- context [handle_tool_call py self ?n ?a t] =>
        destruct (handle_tool_call_total py self n a t) as (r & t1 & ->) end;
      destruct (dict_get "id" d); discriminate.
  - cbn -[handle_tool_call].
    destruct (handle_tool_call_total py self JNull (JDict []) t) as (r & t1 & ->).
    destruct (dict_get "id" d); discriminate.
Qed.




(** A collaborator that raises is caught inside the domain operation: the
    Response is a [result] whose envelope reports the failure. *)
Example collaborator_error_is_domain_level :
  handle_message Demo.py Demo.server
    (Demo.tools_call (JInt 8) "resolve_ens_name" [("ens_name", JStr "bad..eth")]) [] =
  (Ok (result_response (JInt 8)
         (JDict [("content", JList [JDict [
            ("type", JStr "text");
            ("text", JStr (Demo.dumps (JDict [
               ("success", JBool false);
               ("error", JStr "ENS error: Invalid name");
               ("ens_name", JStr "bad..eth");
               ("coin_type", JInt 60)])))]])])),
   [EnsAddress "bad..eth" None]).
Proof. reflexivity. Qed.

(** A parsed line that is not an object is no request object: there the
    handler itself raises, and the exception leaves [handle_message]. *)
Lemma handle_message_non_object (py : Runtime) (self : ENSMCPServer)
      (message : json) (t : trace) :
  (forall d, message <> JDict d) ->
  handle_message py self message t =
  (Raise (AttributeError (type_name message) "get"), t).
Proof.
  intro H. destruct message; try reflexivity. now destruct (H d).
Qed.

(** C10. For every request whose method string is none of [initialize],
    [tools/list] and [tools/call], the Response is
    [error = {code: -32601, message: "Method not found: <method>"}] with the
    request's id, and it has no [result] field. *)
Theorem unknown_method_not_found
        (py : Runtime) (self : ENSMCPServer) (d : dict) (method : string)
        (t : trace) :
  dict_get "method" d = Some (JStr method) ->
  existsb (String.eqb method) ["initialize"; "tools/list"; "tools/call"] = false ->
  let response :=
    JDict [("id", request_id d);
           ("error", JDict [("code", JInt (-32601));
                            ("message", JStr ("Method not found: " ++ method))])] in
  handle_message py self (JDict d) t = (Ok response, t) /\
  field "result" response = None.
Proof.
  intros Hm Hunknown response. split; [| reflexivity].
  simpl in Hunknown.
  apply orb_false_elim in Hunknown as [H1 Hunknown].
  apply orb_false_elim in Hunknown as [H2 Hunknown].
  apply orb_false_elim in Hunknown as [H3 _].
  pose proof (handle_message_unknown_method py self d t) as H.
  rewrite Hm in H. simpl in H. exact (H H1 H2 H3).
Qed.

Lemma unknown_method_not_found_witness :
  dict_get "method" [("id", JStr "a1"); ("method", JStr "resources/list")]
  = Some (JStr "resources/list") /\
  handle_message Demo.py Demo.server
    (JDict [("id", JStr "a1"); ("method", JStr "resources/list")]) [] =
  (Ok (JDict [("id", JStr "a1");
              ("error", JDict [("code", JInt (-32601));
                               ("message", JStr "Method not found: resources/list")])]),
   []).
Proof.
  split; [reflexivity |].
  exact (proj1 (unknown_method_not_found Demo.py Demo.server
                  [("id", JStr "a1"); ("method", JStr "resources/list")]
                  "resources/list" [] eq_refl eq_refl)).
Defined.

(** C5, as the code has it.  For every request object the Response's [id]
    field is [message.get("id")]: the request's id, whatever JSON value it
    is, unchanged; and when the request carries no id the Response still has
    an [id] field, holding [null]. *)
Theorem response_id_echoed
        (py : Runtime) (self : ENSMCPServer) (d : dict) (t : trace) :
  exists r t',
    handle_message py self (JDict d) t = (Ok r, t') /\
    field "id" r = Some (match dict_get "id" d with
                         | Some id => id
                         | None => JNull
                         end).
Proof.
  rewrite handle_message_dict.
  destruct (handle_message_body py self (JDict d) t) as [[r|e] t'] eqn:Hbody.
  - exists r, t'. split; [reflexivity |].
    exact (proj1 (handle_message_body_response py self d t t' r Hbody)).
  - eexists _, _. split; reflexivity.
Qed.

(** C5 as stated fails: a request without an id is answered by a Response
    whose [id] field is present (and null), not absent. *)
Lemma response_id_not_absent :
  let request := JDict [("jsonrpc", JStr "2.0"); ("method", JStr "tools/list")] in
  field "id" request = None /\
  exists r,
    handle_message Demo.py Demo.server request [] = (Ok r, []) /\
    has_field "id" r = true /\
    field "id" r = Some JNull.
Proof.
  split; [reflexivity |].
  eexists. repeat split; reflexivity.
Qed.

(* ----------------------------------------------------------------- *)
(** *** Missing required arguments *)

Lemma tool_names_cases (tool : string) :
  existsb (String.eqb tool) tool_names = true ->
  tool = "resolve_ens_name" \/ tool = "reverse_resolve_address" \/
  tool = "get_ens_text_record" \/ tool = "get_ens_info".
Proof.
  unfold tool_names. simpl. rewrite orb_false_r, !orb_true_iff, !String.eqb_eq.
  tauto.
Qed.

(** A known tool called without a required key: the subscript raises
    [KeyError] before any domain operation starts, and the catch-all of
    [handle_tool_call] turns it into an envelope of its own. *)
Lemma handle_tool_call_missing_key (py : Runtime) (self : ENSMCPServer)
      (tool key : string) (args : dict) (t : trace) :
  existsb (String.eqb tool) tool_names = true ->
  first_missing (required_keys tool) args = Some key ->
  handle_tool_call py self (JStr tool) (JDict args) t =
  (Ok (tool_failure ("Error handling tool call: '" ++ key ++ "'")), t).
Proof.
  intros Hknown Hmissing.
  destruct (tool_names_cases tool Hknown) as [-> | [-> | [-> | ->]]];
    cbn in Hmissing;
    unfold handle_tool_call, try_except, bind, lift, py_subscript; simpl;
    repeat match type of Hmissing with
           | context [dict_get ?k args] => destruct (dict_get k args)
           end;
    try discriminate Hmissing;
    injection Hmissing as <-; reflexivity.
Qed.

(** C3, as the code has it.  For every [tools/call] request naming one of
    the four known operations whose arguments lack a required key, the
    router answers without starting the domain operation (no collaborator
    call is made) and the error is its own: the envelope
    [{success: false, error: "Error handling tool call: '<key>'"}] for the
    first missing key, which no domain operation can return.  It travels the
    way domain-level errors do, as text inside the Response's [result]; the
    Response has no Response-level [error]. *)
Theorem missing_argument_routing_error
        (py : Runtime) (self : ENSMCPServer) (d params args : dict)
        (tool key : string) (t : trace) :
  dict_get "method" d = Some (JStr "tools/call") ->
  dict_get "params" d = Some (JDict params) ->
  dict_get "name" params = Some (JStr tool) ->
  match dict_get "arguments" params with
  | Some arguments => arguments
  | None => JDict []
  end = JDict args ->
  existsb (String.eqb tool) tool_names = true ->
  first_missing (required_keys tool) args = Some key ->
  let envelope :=
    JDict [("success", JBool false);
           ("error", JStr ("Error handling tool call: '" ++ key ++ "'"))] in
  let response :=
    JDict [("id", request_id d);
           ("result", JDict [("content", JList [JDict [
              ("type", JStr "text");
              ("text", JStr (json_dumps py (Some 2) envelope))]])])] in
  handle_message py self (JDict d) t = (Ok response, t) /\
  field "error" response = None /\
  forall (self' : ENSMCPServer) (a b : json) (t0 : trace),
    returns (resolve_ens_name py self' a b) t0 (fun r => r <> envelope) /\
    returns (reverse_resolve_address py self' a) t0 (fun r => r <> envelope) /\
    returns (get_ens_text_record py self' a b) t0 (fun r => r <> envelope) /\
    returns (get_ens_info py self' a) t0 (fun r => r <> envelope).
Proof.
  intros Hmethod Hparams Hname Hargs Hknown Hmissing envelope response.
  split; [| split; [reflexivity |]].
  - rewrite handle_message_dict.
    unfold handle_message_body, bind, lift, ret, py_get.
    rewrite Hmethod, Hparams, Hname. simpl.
    assert (Ha : match dict_get "arguments" params with
                 | Some v => Ok v
                 | None => Ok (JDict [])
                 end = Ok (JDict args))
      by (destruct (dict_get "arguments" params); now rewrite <- Hargs).
    rewrite Ha, (handle_tool_call_missing_key py self tool key args t Hknown Hmissing).
    unfold response, envelope, request_id, result_response, tool_failure.
    destruct (dict_get "id" d); reflexivity.
  - intros self' a b t0.
    assert (Hdistinct : forall r, domain_envelope r -> r <> envelope)
      by (intros r [_ Hsubject] ->; discriminate Hsubject).
    split; [| split; [| split]]; apply (returns_weaken _ _ _ _ Hdistinct).
    + apply resolve_ens_name_envelope.
    + apply reverse_resolve_address_envelope.
    + apply get_ens_text_record_envelope.
    + apply get_ens_info_envelope.
Qed.

Lemma missing_argument_routing_error_witness :
  let request := Demo.tools_call (JInt 3) "get_ens_text_record"
                                 [("ens_name", JStr "vitalik.eth")] in
  first_missing (required_keys "get_ens_text_record")
                [("ens_name", JStr "vitalik.eth")] = Some "key" /\
  handle_message Demo.py Demo.server request [] =
  (Ok (JDict [("id", JInt 3);
              ("result", JDict [("content", JList [JDict [
                 ("type", JStr "text");
                 ("text", JStr (Demo.dumps (JDict [
                    ("success", JBool false);
                    ("error", JStr "Error handling tool call: 'key'")])))]])])]),
   []).
Proof.
  split; [reflexivity |].
  exact (proj1 (missing_argument_routing_error Demo.py Demo.server
                  (fields (Demo.tools_call (JInt 3) "get_ens_text_record"
                                           [("ens_name", JStr "vitalik.eth")]))
                  [("name", JStr "get_ens_text_record");
                   ("arguments", JDict [("ens_name", JStr "vitalik.eth")])]
                  [("ens_name", JStr "vitalik.eth")]
                  "get_ens_text_record" "key" []
                  eq_refl eq_refl eq_refl eq_refl eq_refl eq_refl)).
Defined.

(** C3 as stated fails: the error for a missing required argument is not
    reported at the protocol layer.  The Response is a [result], not a
    Response-level [error{code, message}], and what it carries is a
    [success: false] envelope inside the result payload. *)
Lemma missing_argument_not_protocol_error :
  let request := Demo.tools_call (JInt 1) "resolve_ens_name" [] in
  first_missing (required_keys "resolve_ens_name") [] = Some "ens_name" /\
  exists r,
    handle_message Demo.py Demo.server request [] = (Ok r, []) /\
    protocol_error r = false /\
    field "error" r = None /\
    field "result" r =
    Some (JDict [("content", JList [JDict [
            ("type", JStr "text");
            ("text", JStr (json_dumps Demo.py (Some 2)
                             (JDict [("success", JBool false);
                                     ("error", JStr "Error handling tool call: 'ens_name'")])))]])]).
Proof.
  split; [reflexivity |].
  eexists. repeat split; reflexivity.
Qed.

(* ================================================================= *)
(** ** The serving loop *)

(** C4, as the code has it.  For every input line on which [json.loads]
    raises [JSONDecodeError], the loop writes exactly one line to standard
    output, the serialised Response
    [{"error": {"code": -32700, "message": "Parse error"}}], which has no
    [id] field, and then goes on with the remaining lines exactly as it
    would have from there.  A line on which [json.loads] raises any other
    exception is not answered: the exception leaves the loop with nothing
    written and the remaining lines unread. *)
Theorem parse_error_continues
        (py : Runtime) (self : ENSMCPServer) (line : string) (e : exn)
        (rest : list string) (t : trace) :
  PyStr.is_empty line = false ->
  json_loads py (str_strip py line) = Raise e ->
  let response :=
    JDict [("error", JDict [("code", JInt (-32700));
                            ("message", JStr "Parse error")])] in
  (if is_JSONDecodeError e then
     serve_forever py self (line :: rest) t =
     serve_forever py self rest
       (t ++ [LogError ("Invalid JSON received: " ++ str_exn e);
              Stdout (json_dumps py None response)])%list
   else
     serve_forever py self (line :: rest) t = (Raise e, t))
  /\ field "id" response = None.
Proof.
  intros Hline Hparse response. split; [| reflexivity].
  simpl serve_forever. rewrite Hline.
  unfold bind at 1. unfold serve_line, try_except_cls, bind, lift, emit.
  rewrite Hparse. cbv beta iota.
  destruct (is_JSONDecodeError e); [| reflexivity].
  now rewrite <- app_assoc.
Qed.

Lemma parse_error_continues_witness :
  PyStr.is_empty ("{oops" ++ nl) = false /\
  json_loads Demo.py (str_strip Demo.py ("{oops" ++ nl))
  = Raise (JSONDecodeError "Expecting value: line 1 column 1 (char 0)") /\
  serve_forever Demo.py Demo.server ["{oops" ++ nl; "{}" ++ nl] [] =
  serve_forever Demo.py Demo.server ["{}" ++ nl]
    [LogError "Invalid JSON received: Expecting value: line 1 column 1 (char 0)";
     Stdout (Demo.dumps (JDict [("error", JDict [("code", JInt (-32700));
                                                 ("message", JStr "Parse error")])]))].
Proof.
  split; [reflexivity |]. split; [reflexivity |].
  exact (proj1 (parse_error_continues Demo.py Demo.server ("{oops" ++ nl)
                  (JSONDecodeError "Expecting value: line 1 column 1 (char 0)")
                  ["{}" ++ nl] [] eq_refl eq_refl)).
Defined.

(** C4 as stated fails: not every line that fails to parse is answered.
    An integer literal of 4301 digits makes [json.loads] raise
    [ValueError], which the handler for [JSONDecodeError] does not catch:
    nothing is printed, the next line is never read, and the server stops. *)
Lemma unparsed_line_ends_loop :
  let line := py_repeat "1" 4301 ++ nl in
  let error :=
    "Exceeds the limit (4300 digits) for integer string conversion: value has 4301 digits; use sys.set_int_max_str_digits() to increase the limit" in
  json_loads Demo.py (str_strip Demo.py line)
  = Raise (OtherException "ValueError" error) /\
  serve_forever Demo.py Demo.server [line; "{}" ++ nl] []
  = (Raise (OtherException "ValueError" error), []) /\
  run_stdio Demo.py Demo.server [line; "{}" ++ nl] [] =
  (Ok tt,
   [LogInfo "Starting ENS MCP Server with stdio transport";
    LogError ("Server error: " ++ error);
    LogInfo "ENS MCP Server stopped"]).
Proof.
  intros line error. repeat split; vm_compute; reflexivity.
Qed.

(** A line that parses to something other than an object is not a parse
    error; the exception it causes in [handle_message] is caught by the
    outer handler of [run_stdio], which ends the loop with the lines after
    it unread. *)
Example non_object_line_stops_the_loop :
  let nl := String (ascii_of_nat 10) EmptyString in
  run_stdio Demo.py Demo.server ["[]" ++ nl; "{}" ++ nl] [] =
  (Ok tt,
   [LogInfo "Starting ENS MCP Server with stdio transport";
    LogError "Server error: 'list' object has no attribute 'get'";
    LogInfo "ENS MCP Server stopped"]).
Proof. reflexivity. Qed.

(* ================================================================= *)
(** ** Further properties of the domain operations *)

(** X1. Whenever the constructor returns, the server it returns has both
    [w3] and [ens] set, the node reported itself connected, and the last
    record logged is the success message: a server object never exists
    half-initialised. *)
Theorem init_returns_initialized
        (py : Runtime) (url : string) (t t' : trace) (self : ENSMCPServer) :
  init py url t = (Ok self, t') ->
  exists W E,
    self = {| rpc_url := url; w3 := Some W; ens := Some E |} /\
    new_web3 py url = Ok W /\
    is_connected W = true /\
    ens_from_web3 py W = Ok E /\
    t' = (t ++ [LogInfo ("Successfully connected to Ethereum node at " ++ url)])%list.
Proof.
  unfold init, initialize_web3, try_except, bind, lift, emit, raise, ret. simpl.
  destruct (new_web3 py url) as [W|e] eqn:HW; simpl; [| discriminate].
  destruct (is_connected W) eqn:Hc; simpl; [| discriminate].
  destruct (ens_from_web3 py W) as [E|e] eqn:HE; simpl; [| discriminate].
  intro H. injection H as <- <-. exists W, E. repeat split; assumption.
Qed.

Lemma init_returns_initialized_witness :
  exists W E,
    Demo.server = {| rpc_url := "https://eth-mainnet.g.alchemy.com/v2/demo";
                     w3 := Some W; ens := Some E |} /\
    new_web3 Demo.py "https://eth-mainnet.g.alchemy.com/v2/demo" = Ok W /\
    is_connected W = true /\
    ens_from_web3 Demo.py W = Ok E /\
    [LogInfo "Successfully connected to Ethereum node at https://eth-mainnet.g.alchemy.com/v2/demo"]
    = ([] ++ [LogInfo ("Successfully connected to Ethereum node at "
                       ++ "https://eth-mainnet.g.alchemy.com/v2/demo")])%list.
Proof.
  exact (init_returns_initialized Demo.py
           "https://eth-mainnet.g.alchemy.com/v2/demo" [] _ Demo.server eq_refl).
Defined.

(** X2. When the constructor cannot start, it raises and logs why.  A node
    that is reachable but reports itself not connected gives
    [ConnectionError("Could not connect to Ethereum node")] after two error
    records; a provider or ENS set-up that raises gives that same exception
    after one. *)
Theorem init_failure
        (py : Runtime) (url : string) (t : trace) :
  init py url t =
  match new_web3 py url with
  | Raise e =>
      (Raise e, (t ++ [LogError ("Failed to initialize Web3: " ++ str_exn e)])%list)
  | Ok W =>
      if is_connected W then
        match ens_from_web3 py W with
        | Raise e =>
            (Raise e,
             (t ++ [LogError ("Failed to initialize Web3: " ++ str_exn e)])%list)
        | Ok E =>
            (Ok {| rpc_url := url; w3 := Some W; ens := Some E |},
             (t ++ [LogInfo ("Successfully connected to Ethereum node at " ++ url)])%list)
        end
      else
        (Raise (ConnectionError "Could not connect to Ethereum node"),
         (t ++ [LogError ("Failed to connect to Ethereum node at " ++ url);
                LogError "Failed to initialize Web3: Could not connect to Ethereum node"])%list)
  end.
Proof.
  unfold init, initialize_web3, try_except, bind, lift, emit, raise, ret. simpl.
  destruct (new_web3 py url) as [W|e]; simpl; [| reflexivity].
  destruct (is_connected W); simpl.
  - destruct (ens_from_web3 py W) as [E|e]; reflexivity.
  - now rewrite <- app_assoc.
Qed.

(** X3. On an initialised server and a string name, [resolve_ens_name]
    makes exactly one collaborator call, on the normalised name, passing
    [coin_type] only when it differs from 60.  An address makes a success
    envelope; no address or an empty one is the domain failure
    ["No address found for ENS name: <name>"]; an [ENSException] is reported
    as ["ENS error: ..."] and any other exception as
    ["Unexpected error: ..."].  Every envelope carries the normalised name. *)
Theorem resolve_ens_name_outcome
        (py : Runtime) (self : ENSMCPServer) (E : ENS)
        (name : string) (coin_type : json) (t : trace) :
  ens self = Some E ->
  let n := str_lower py (str_strip py name) in
  let passed := if py_eq_60 coin_type then None else Some coin_type in
  resolve_ens_name py self (JStr name) coin_type t =
  (Ok match ens_address E n passed with
      | Ok address =>
          if truthy address then
            JDict [("success", JBool true);
                   ("ens_name", JStr n);
                   ("address", opt_json address);
                   ("coin_type", coin_type);
                   ("timestamp", JStr (utcnow_isoformat py))]
          else
            resolve_failure ("No address found for ENS name: " ++ n)
                            (JStr n) coin_type
      | Raise e =>
          resolve_failure
            ((if is_ENSException e then "ENS error: " else "Unexpected error: ")
             ++ str_exn e)
            (JStr n) coin_type
      end,
   (t ++ [EnsAddress n passed])%list).
Proof. exact (resolve_ens_name_run py self E name coin_type t). Qed.

Lemma resolve_ens_name_outcome_witness :
  ens Demo.server = Some Demo.the_ens /\
  resolve_ens_name Demo.py Demo.server (JStr " BAD..eth") (JInt 0) [] =
  (Ok (JDict [("success", JBool false);
              ("error", JStr "ENS error: Invalid name");
              ("ens_name", JStr "bad..eth");
              ("coin_type", JInt 0)]),
   [EnsAddress "bad..eth" (Some (JInt 0))]).
Proof.
  split; [reflexivity |].
  exact (resolve_ens_name_outcome Demo.py Demo.server Demo.the_ens
           " BAD..eth" (JInt 0) [] eq_refl).
Defined.

(** X4. An argument that is not a string never reaches the collaborator:
    on an initialised server each operation answers with its own failure
    envelope, whose message is the [AttributeError] of [.strip()] and which
    echoes the argument as received, and no call is made. *)
Theorem non_string_argument_rejected
        (py : Runtime) (self : ENSMCPServer) (W : Web3) (E : ENS)
        (arg other : json) (t : trace) :
  w3 self = Some W ->
  ens self = Some E ->
  match arg with JStr _ => false | _ => true end = true ->
  let msg := "'" ++ type_name arg ++ "' object has no attribute 'strip'" in
  resolve_ens_name py self arg other t =
    (Ok (resolve_failure ("Unexpected error: " ++ msg) arg other), t) /\
  reverse_resolve_address py self arg t =
    (Ok (reverse_failure ("Error during reverse resolution: " ++ msg) arg), t) /\
  get_ens_text_record py self arg other t =
    (Ok (text_failure ("Error getting text record: " ++ msg) arg other), t) /\
  get_ens_info py self arg t =
    (Ok (info_failure ("Error getting ENS info: " ++ msg) arg), t).
Proof.
  intros HW HE Hns msg.
  unfold resolve_ens_name, reverse_resolve_address, get_ens_text_record,
    get_ens_info. rewrite HW, HE.
  destruct arg; try (repeat split; reflexivity).
  discriminate Hns.
Qed.

Lemma non_string_argument_rejected_witness :
  w3 Demo.server = Some Demo.the_w3 /\
  ens Demo.server = Some Demo.the_ens /\
  get_ens_info Demo.py Demo.server (JInt 5) [] =
  (Ok (JDict [("success", JBool false);
              ("error", JStr "Error getting ENS info: 'int' object has no attribute 'strip'");
              ("ens_name", JInt 5)]),
   []).
Proof.
  split; [reflexivity |]. split; [reflexivity |].
  exact (proj2 (proj2 (proj2
    (non_string_argument_rejected Demo.py Demo.server Demo.the_w3 Demo.the_ens
       (JInt 5) JNull [] eq_refl eq_refl eq_refl)))).
Defined.

(** X5. On an initialised server and an address that passes the format
    check after trimming, [reverse_resolve_address] converts the trimmed
    address to checksum form and looks up that form, not the input.  A name
    makes a success envelope carrying the checksum address; no name or an
    empty one is the domain failure
    ["No ENS name found for address: <checksum>"]; an exception from the
    conversion or the lookup is reported as
    ["Error during reverse resolution: ..."] with the trimmed input, and a
    failed conversion means the lookup is never made. *)
Theorem reverse_resolve_valid
        (py : Runtime) (self : ENSMCPServer) (W : Web3) (E : ENS)
        (address : string) (t : trace) :
  w3 self = Some W ->
  ens self = Some E ->
  let a := str_strip py address in
  is_address W a = true ->
  reverse_resolve_address py self (JStr address) t =
  match to_checksum_address W a with
  | Raise e =>
      (Ok (reverse_failure ("Error during reverse resolution: " ++ str_exn e)
                           (JStr a)),
       (t ++ [W3IsAddress a; W3ToChecksum a])%list)
  | Ok checksum =>
      (Ok match ens_name E checksum with
          | Ok name =>
              if truthy name then
                JDict [("success", JBool true);
                       ("address", JStr checksum);
                       ("ens_name", opt_json name);
                       ("timestamp", JStr (utcnow_isoformat py))]
              else
                reverse_failure ("No ENS name found for address: " ++ checksum)
                                (JStr checksum)
          | Raise e =>
              reverse_failure ("Error during reverse resolution: " ++ str_exn e)
                              (JStr a)
          end,
       (t ++ [W3IsAddress a; W3ToChecksum a; EnsName checksum])%list)
  end.
Proof.
  intros HW HE a Hvalid. unfold reverse_resolve_address. rewrite HW, HE.
  run_monad. unfold reverse_except, ret. fold a. rewrite Hvalid. simpl.
  destruct (to_checksum_address W a) as [c|e]; simpl.
  - destruct (ens_name E c) as [n|e]; simpl; try destruct (truthy n);
      simpl; rewrite <- !app_assoc; reflexivity.
  - rewrite <- !app_assoc. reflexivity.
Qed.

Lemma reverse_resolve_valid_witness :
  w3 Demo.server = Some Demo.the_w3 /\
  ens Demo.server = Some Demo.the_ens /\
  is_address Demo.the_w3 (str_strip Demo.py (" " ++ Demo.vitalik)) = true /\
  reverse_resolve_address Demo.py Demo.server (JStr (" " ++ Demo.vitalik)) [] =
  (Ok (JDict [("success", JBool true);
              ("address", JStr Demo.vitalik);
              ("ens_name", JStr "vitalik.eth");
              ("timestamp", JStr "2024-01-01T00:00:00")]),
   [W3IsAddress Demo.vitalik; W3ToChecksum Demo.vitalik; EnsName Demo.vitalik]).
Proof.
  repeat (split; [reflexivity |]).
  exact (reverse_resolve_valid Demo.py Demo.server Demo.the_w3 Demo.the_ens
           (" " ++ Demo.vitalik) [] eq_refl eq_refl eq_refl).
Defined.

(** X6. A server whose [ens] is unset answers every operation with a
    ["... not initialized"] failure envelope that echoes the arguments
    exactly as received, without normalising them and without any call. *)
Theorem uninitialised_server_answers
        (py : Runtime) (self : ENSMCPServer) (a b : json) (t : trace) :
  ens self = None ->
  resolve_ens_name py self a b t =
    (Ok (resolve_failure "ENS not initialized" a b), t) /\
  reverse_resolve_address py self a t =
    (Ok (reverse_failure "Web3 or ENS not initialized" a), t) /\
  get_ens_text_record py self a b t =
    (Ok (text_failure "ENS not initialized" a b), t) /\
  get_ens_info py self a t =
    (Ok (info_failure "ENS not initialized" a), t).
Proof.
  intro HE.
  unfold resolve_ens_name, reverse_resolve_address, get_ens_text_record,
    get_ens_info. rewrite HE.
  destruct (w3 self); repeat split; reflexivity.
Qed.

Lemma uninitialised_server_answers_witness :
  let blank := {| rpc_url := "http://localhost:8545"; w3 := None; ens := None |} in
  ens blank = None /\
  resolve_ens_name Demo.py blank (JStr " Name.ETH ") (JInt 60) [] =
  (Ok (JDict [("success", JBool false);
              ("error", JStr "ENS not initialized");
              ("ens_name", JStr " Name.ETH ");
              ("coin_type", JInt 60)]),
   []).
Proof.
  intro blank. split; [reflexivity |].
  exact (proj1 (uninitialised_server_answers Demo.py blank
                  (JStr " Name.ETH ") (JInt 60) [] eq_refl)).
Defined.

(* ================================================================= *)
(** ** Further properties of the router *)

Lemma advertised_names_cases (tool : string) :
  existsb (String.eqb tool) advertised_names = true ->
  tool = "resolve_ens_name" \/ tool = "reverse_resolve_address" \/
  tool = "get_ens_text_record" \/ tool = "get_ens_info".
Proof. exact (tool_names_cases tool). Qed.

(** With its required keys present, a tool call is the domain operation on
    the values under those keys. *)
Lemma handle_tool_call_resolve (py : Runtime) (self : ENSMCPServer)
      (args : dict) (v : json) (t : trace) :
  dict_get "ens_name" args = Some v ->
  handle_tool_call py self (JStr "resolve_ens_name") (JDict args) t =
  resolve_ens_name py self v
    (match dict_get "coin_type" args with Some c => c | None => JInt 60 end) t.
Proof.
  intro Hv. unfold handle_tool_call, try_except, bind, lift, py_subscript, py_get.
  simpl. rewrite Hv.
  destruct (dict_get "coin_type" args) as [c|];
    match goal with |- context [resolve_ens_name py self v ?c t] =>
      destruct (resolve_ens_name_envelope py self v c t) as (r & t' & -> & _)
    end; reflexivity.
Qed.

Lemma handle_tool_call_reverse (py : Runtime) (self : ENSMCPServer)
      (args : dict) (v : json) (t : trace) :
  dict_get "address" args = Some v ->
  handle_tool_call py self (JStr "reverse_resolve_address") (JDict args) t =
  reverse_resolve_address py self v t.
Proof.
  intro Hv. unfold handle_tool_call, try_except, bind, lift, py_subscript.
  simpl. rewrite Hv.
  destruct (reverse_resolve_address_envelope py self v t) as (r & t' & -> & _).
  reflexivity.
Qed.

Lemma handle_tool_call_text (py : Runtime) (self : ENSMCPServer)
      (args : dict) (v k : json) (t : trace) :
  dict_get "ens_name" args = Some v ->
  dict_get "key" args = Some k ->
  handle_tool_call py self (JStr "get_ens_text_record") (JDict args) t =
  get_ens_text_record py self v k t.
Proof.
  intros Hv Hk. unfold handle_tool_call, try_except, bind, lift, py_subscript.
  simpl. rewrite Hv, Hk.
  destruct (get_ens_text_record_envelope py self v k t) as (r & t' & -> & _).
  reflexivity.
Qed.

Lemma handle_tool_call_info (py : Runtime) (self : ENSMCPServer)
      (args : dict) (v : json) (t : trace) :
  dict_get "ens_name" args = Some v ->
  handle_tool_call py self (JStr "get_ens_info") (JDict args) t =
  get_ens_info py self v t.
Proof.
  intro Hv. unfold handle_tool_call, try_except, bind, lift, py_subscript.
  simpl. rewrite Hv.
  destruct (get_ens_info_envelope py self v t) as (r & t' & -> & _).
  reflexivity.
Qed.

(** X7. A tool name that [tools/list] does not advertise, be it a string,
    [null] for a missing name or any other value, is answered with the
    envelope [{success: false, error: "Unknown tool: <name>"}]; the
    arguments are not looked at and no call is made. *)
Theorem unknown_tool_rejected
        (py : Runtime) (self : ENSMCPServer) (tool_name arguments : json)
        (t : trace) :
  existsb (py_eq_str tool_name) advertised_names = false ->
  handle_tool_call py self tool_name arguments t =
  (Ok (JDict [("success", JBool false);
              ("error", JStr ("Unknown tool: " ++ format py tool_name))]), t).
Proof.
  intro H. change advertised_names with tool_names in H. simpl in H.
  repeat (apply orb_false_elim in H as [?H H]).
  unfold handle_tool_call, try_except.
  repeat match goal with Hx : py_eq_str _ _ = false |- _ =>
           rewrite Hx; clear Hx end.
  reflexivity.
Qed.

Lemma unknown_tool_rejected_witness :
  existsb (py_eq_str JNull) advertised_names = false /\
  handle_tool_call Demo.py Demo.server JNull (JList []) [] =
  (Ok (JDict [("success", JBool false);
              ("error", JStr "Unknown tool: None")]), []).
Proof.
  split; [reflexivity |].
  exact (unknown_tool_rejected Demo.py Demo.server JNull (JList []) [] eq_refl).
Defined.

(** X8. The [required] lists that [tools/list] advertises are sufficient:
    for every advertised tool, a call whose arguments hold every required
    key reaches the domain operation, so what comes back is a domain
    envelope (one satisfying the envelope invariant and naming its subject),
    never the router's own error. *)
Theorem required_keys_suffice
        (py : Runtime) (self : ENSMCPServer) (tool : string) (args : dict)
        (t : trace) :
  existsb (String.eqb tool) advertised_names = true ->
  first_missing (required_keys tool) args = None ->
  returns (handle_tool_call py self (JStr tool) (JDict args)) t domain_envelope.
Proof.
  intros Hknown Hpresent. unfold returns.
  destruct (advertised_names_cases tool Hknown) as [-> | [-> | [-> | ->]]];
    cbn in Hpresent;
    repeat match type of Hpresent with
           | context [dict_get ?k args] =>
               let Hk := fresh "Hk" in
               destruct (dict_get k args) eqn:Hk
           end;
    try discriminate Hpresent.
  - rewrite (handle_tool_call_resolve py self args _ t Hk).
    apply resolve_ens_name_envelope.
  - rewrite (handle_tool_call_reverse py self args _ t Hk).
    apply reverse_resolve_address_envelope.
  - rewrite (handle_tool_call_text py self args _ _ t Hk Hk0).
    apply get_ens_text_record_envelope.
  - rewrite (handle_tool_call_info py self args _ t Hk).
    apply get_ens_info_envelope.
Qed.

Lemma required_keys_suffice_witness :
  existsb (String.eqb "get_ens_text_record") advertised_names = true /\
  first_missing (required_keys "get_ens_text_record")
                [("key", JStr "url"); ("ens_name", JInt 1)] = None /\
  returns (handle_tool_call Demo.py Demo.server (JStr "get_ens_text_record")
             (JDict [("key", JStr "url"); ("ens_name", JInt 1)])) []
          domain_envelope.
Proof.
  split; [reflexivity |]. split; [reflexivity |].
  exact (required_keys_suffice Demo.py Demo.server "get_ens_text_record"
           [("key", JStr "url"); ("ens_name", JInt 1)] [] eq_refl eq_refl).
Defined.

(** X9. Leaving [coin_type] out of a [resolve_ens_name] call is the same
    as passing the default that the tool's schema advertises for it. *)
Theorem coin_type_default
        (py : Runtime) (self : ENSMCPServer) (args : dict) (t : trace) :
  dict_get "coin_type" args = None ->
  exists default,
    advertised_default "resolve_ens_name" "coin_type" = Some default /\
    handle_tool_call py self (JStr "resolve_ens_name") (JDict args) t =
    handle_tool_call py self (JStr "resolve_ens_name")
      (JDict (args ++ [("coin_type", default)])%list) t.
Proof.
  intro Hnone. exists (JInt 60). split; [reflexivity |].
  destruct (dict_get "ens_name" args) as [v|] eqn:Hv.
  - rewrite (handle_tool_call_resolve py self args v t Hv).
    rewrite (handle_tool_call_resolve py self (args ++ [("coin_type", JInt 60)])%list v t)
      by (now rewrite dict_get_app, Hv).
    rewrite dict_get_app, Hnone. reflexivity.
  - unfold handle_tool_call, try_except, bind, lift, py_subscript. simpl.
    rewrite dict_get_app, Hv. reflexivity.
Qed.

Lemma coin_type_default_witness :
  dict_get "coin_type" [("ens_name", JStr "vitalik.eth")] = None /\
  exists default,
    advertised_default "resolve_ens_name" "coin_type" = Some default /\
    handle_tool_call Demo.py Demo.server (JStr "resolve_ens_name")
      (JDict [("ens_name", JStr "vitalik.eth")]) [] =
    handle_tool_call Demo.py Demo.server (JStr "resolve_ens_name")
      (JDict ([("ens_name", JStr "vitalik.eth")] ++ [("coin_type", default)])%list) [].
Proof.
  split; [reflexivity |].
  exact (coin_type_default Demo.py Demo.server
           [("ens_name", JStr "vitalik.eth")] [] eq_refl).
Defined.

(** X10. When [arguments] is not an object, a call to an advertised tool
    is answered by the router's own envelope, whose message is the
    [TypeError] of subscripting that value; the domain operation is not
    started and no call is made. *)
Theorem non_object_arguments_rejected
        (py : Runtime) (self : ENSMCPServer) (tool : string) (arguments : json)
        (t : trace) :
  existsb (String.eqb tool) advertised_names = true ->
  match arguments with JDict _ => false | _ => true end = true ->
  let msg :=
    match arguments with
    | JList _ => "list indices must be integers or slices, not str"
    | JStr _ => "string indices must be integers, not 'str'"
    | _ => "'" ++ type_name arguments ++ "' object is not subscriptable"
    end in
  handle_tool_call py self (JStr tool) arguments t =
  (Ok (JDict [("success", JBool false);
              ("error", JStr ("Error handling tool call: " ++ msg))]), t).
Proof.
  intros Hknown Hnot msg.
  destruct (advertised_names_cases tool Hknown) as [-> | [-> | [-> | ->]]];
    destruct arguments; try discriminate Hnot; reflexivity.
Qed.

Lemma non_object_arguments_rejected_witness :
  existsb (String.eqb "get_ens_info") advertised_names = true /\
  handle_tool_call Demo.py Demo.server (JStr "get_ens_info") (JStr "vitalik.eth") [] =
  (Ok (JDict [("success", JBool false);
              ("error", JStr "Error handling tool call: string indices must be integers, not 'str'")]),
   []).
Proof.
  split; [reflexivity |].
  exact (non_object_arguments_rejected Demo.py Demo.server "get_ens_info"
           (JStr "vitalik.eth") [] eq_refl eq_refl).
Defined.

(** X11. A [tools/call] request whose [params] is an object, or is left
    out, is always answered with a [result], never with a Response-level
    [error]: whatever the tool name, the arguments and the collaborator do,
    the Response wraps the envelope of [handle_tool_call] as indented JSON
    text in one content block, under the request's id. *)
Theorem tools_call_always_result
        (py : Runtime) (self : ENSMCPServer) (d params : dict) (t : trace) :
  dict_get "method" d = Some (JStr "tools/call") ->
  match dict_get "params" d with Some p => p | None => JDict [] end
  = JDict params ->
  let tool_name :=
    match dict_get "name" params with Some n => n | None => JNull end in
  let arguments :=
    match dict_get "arguments" params with Some a => a | None => JDict [] end in
  exists envelope t',
    handle_tool_call py self tool_name arguments t = (Ok envelope, t') /\
    handle_message py self (JDict d) t =
    (Ok (JDict [("id", request_id d);
                ("result", JDict [("content", JList [JDict [
                   ("type", JStr "text");
                   ("text", JStr (json_dumps py (Some 2) envelope))]])])]),
     t').
Proof.
  intros Hmethod Hparams tool_name arguments.
  destruct (handle_tool_call_total py self tool_name arguments t)
    as (envelope & t' & Hcall).
  exists envelope, t'. split; [exact Hcall |].
  rewrite handle_message_dict.
  unfold handle_message_body, bind, lift, ret, py_get.
  rewrite Hmethod. simpl.
  assert (Hp : match dict_get "params" d with
               | Some v => Ok v
               | None => Ok (JDict [])
               end = Ok (JDict params))
    by (destruct (dict_get "params" d); now rewrite <- Hparams).
  rewrite Hp.
  assert (Hn : match dict_get "name" params with
               | Some v => Ok v
               | None => Ok JNull
               end = Ok tool_name)
    by (unfold tool_name; destruct (dict_get "name" params); reflexivity).
  assert (Ha : match dict_get "arguments" params with
               | Some v => Ok v
               | None => Ok (JDict [])
               end = Ok arguments)
    by (unfold arguments; destruct (dict_get "arguments" params); reflexivity).
  rewrite Hn, Ha, Hcall.
  unfold request_id. destruct (dict_get "id" d); reflexivity.
Qed.

Lemma tools_call_always_result_witness :
  let d := [("id", JStr "q"); ("method", JStr "tools/call")] in
  dict_get "method" d = Some (JStr "tools/call") /\
  exists envelope t',
    handle_tool_call Demo.py Demo.server JNull (JDict []) [] = (Ok envelope, t') /\
    handle_message Demo.py Demo.server (JDict d) [] =
    (Ok (JDict [("id", JStr "q");
                ("result", JDict [("content", JList [JDict [
                   ("type", JStr "text");
                   ("text", JStr (Demo.dumps envelope))]])])]),
     t').
Proof.
  intro d. split; [reflexivity |].
  exact (tools_call_always_result Demo.py Demo.server d [] [] eq_refl eq_refl).
Defined.

(** X12. A [tools/call] request whose [params] is present but not an
    object ends in the router's catch-all: the Response is [error = {code: -32603, message: "Internal error: '<type>'
    object has no attribute 'get'"}] and no tool is started. *)
Theorem non_object_params_internal_error
        (py : Runtime) (self : ENSMCPServer) (d : dict) (params : json)
        (t : trace) :
  dict_get "method" d = Some (JStr "tools/call") ->
  dict_get "params" d = Some params ->
  match params with JDict _ => false | _ => true end = true ->
  handle_message py self (JDict d) t =
  (Ok (JDict [("id", request_id d);
              ("error", JDict [
                 ("code", JInt (-32603));
                 ("message", JStr ("Internal error: '" ++ type_name params
                                   ++ "' object has no attribute 'get'"))])]),
   t).
Proof.
  intros Hmethod Hparams Hnot.
  rewrite handle_message_dict.
  unfold handle_message_body, bind, lift, ret, py_get.
  rewrite Hmethod, Hparams. simpl.
  destruct params; try discriminate Hnot; reflexivity.
Qed.

Lemma non_object_params_internal_error_witness :
  let d := [("method", JStr "tools/call"); ("params", JList [JStr "resolve_ens_name"])] in
  dict_get "params" d = Some (JList [JStr "resolve_ens_name"]) /\
  handle_message Demo.py Demo.server (JDict d) [] =
  (Ok (JDict [("id", JNull);
              ("error", JDict [
                 ("code", JInt (-32603));
                 ("message", JStr "Internal error: 'list' object has no attribute 'get'")])]),
   []).
Proof.
  intro d. split; [reflexivity |].
  exact (non_object_params_internal_error Demo.py Demo.server d
           (JList [JStr "resolve_ens_name"]) [] eq_refl eq_refl eq_refl).
Defined.

(** X13. Only [tools/call] can reach the collaborator.  A request with any
    other [method], known or not, is answered without a single call, print
    or log record: the trace is left as it was. *)
Theorem other_methods_make_no_call
        (py : Runtime) (self : ENSMCPServer) (d : dict) (t : trace) :
  py_eq_str (match dict_get "method" d with Some m => m | None => JNull end)
            "tools/call" = false ->
  exists response, handle_message py self (JDict d) t = (Ok response, t).
Proof.
  intro Hnot. rewrite handle_message_dict.
  unfold handle_message_body, bind, lift, ret, py_get.
  set (method := match dict_get "method" d with Some m => m | None => JNull end) in *.
  assert (Hm : match dict_get "method" d with
               | Some v => Ok v
               | None => Ok JNull
               end = Ok method)
    by (unfold method; destruct (dict_get "method" d); reflexivity).
  rewrite Hm, Hnot.
  destruct (py_eq_str method "initialize"), (py_eq_str method "tools/list"),
    (dict_get "id" d); eexists; reflexivity.
Qed.

Lemma other_methods_make_no_call_witness :
  let d := [("id", JInt 1); ("method", JStr "tools/list"); ("params", JInt 3)] in
  exists response, handle_message Demo.py Demo.server (JDict d) [] = (Ok response, []).
Proof.
  intro d.
  exact (other_methods_make_no_call Demo.py Demo.server d [] eq_refl).
Defined.

(** X14. On a request object the body of [handle_message] raises in one
    situation only: the method is [tools/call] and [params] is present but
    not an object.  The exception is then the [AttributeError] of
    [params.get], raised before anything was called.  Every other request
    object is answered by the body itself. *)
Theorem body_raises_only_on_non_object_params
        (py : Runtime) (self : ENSMCPServer) (d : dict) (t t' : trace) (e : exn) :
  handle_message_body py self (JDict d) t = (Raise e, t') ->
  dict_get "method" d = Some (JStr "tools/call") /\
  exists params,
    dict_get "params" d = Some params /\
    match params with JDict _ => false | _ => true end = true /\
    e = AttributeError (type_name params) "get" /\
    t' = t.
Proof. exact (handle_message_body_raise_cases py self d t t' e). Qed.

Lemma body_raises_only_on_non_object_params_witness :
  let d := [("id", JInt 7); ("method", JStr "tools/call"); ("params", JNull)] in
  handle_message_body Demo.py Demo.server (JDict d) [] =
  (Raise (AttributeError "NoneType" "get"), []) /\
  exists params,
    dict_get "params" d = Some params /\
    match params with JDict _ => false | _ => true end = true /\
    AttributeError "NoneType" "get" = AttributeError (type_name params) "get" /\
    @nil event = [].
Proof.
  intro d. split; [reflexivity |].
  exact (proj2 (body_raises_only_on_non_object_params Demo.py Demo.server d [] []
                  (AttributeError "NoneType" "get") eq_refl)).
Defined.

(* ================================================================= *)
(** ** What is printed *)

Lemma printed_app (t t' : trace) :
  printed (t ++ t')%list = (printed t ++ printed t')%list.
Proof. unfold printed. apply flat_map_app. Qed.

Lemma quiet_ret {A} (a : A) : quiet (ret a).
Proof. intro t. reflexivity. Qed.

Lemma quiet_raise {A} (e : exn) : quiet (@raise A e).
Proof. intro t. reflexivity. Qed.

Lemma quiet_lift {A} (outcome : exc A) : quiet (lift outcome).
Proof. intro t. reflexivity. Qed.

Lemma quiet_call {A} (ev : event) (outcome : exc A) :
  is_stdout ev = false -> quiet (call ev outcome).
Proof.
  intros Hev t. unfold call. simpl. rewrite printed_app. simpl.
  destruct ev; try discriminate Hev; simpl; apply app_nil_r.
Qed.

Lemma quiet_emit (ev : event) : is_stdout ev = false -> quiet (emit ev).
Proof.
  intros Hev t. unfold emit. simpl. rewrite printed_app. simpl.
  destruct ev; try discriminate Hev; simpl; apply app_nil_r.
Qed.

Lemma quiet_bind {A B} (m : M A) (k : A -> M B) :
  quiet m -> (forall a, quiet (k a)) -> quiet (bind m k).
Proof.
  intros Hm Hk t. unfold bind. specialize (Hm t).
  destruct (m t) as [[a|e] t1]; simpl in *.
  - now rewrite Hk.
  - exact Hm.
Qed.

Lemma quiet_try_except {A} (body : M A) (handler : exn -> M A) :
  quiet body -> (forall e, quiet (handler e)) -> quiet (try_except body handler).
Proof.
  intros Hb Hh t. unfold try_except. specialize (Hb t).
  destruct (body t) as [[a|e] t1]; simpl in *.
  - exact Hb.
  - now rewrite Hh.
Qed.

(** Walk a computation built from the monad's operations. *)
Ltac quiet_walk :=
  repeat first
    [ apply quiet_ret
    | apply quiet_raise
    | apply quiet_lift
    | apply quiet_call; reflexivity
    | apply quiet_emit; reflexivity
    | apply quiet_bind; [| intro]
    | apply quiet_try_except; [| intro]
    | assumption
    | match goal with
      | |- quiet (if ?b then _ else _) => destruct b
      | |- quiet (match ?x with _ => _ end) => destruct x
      end ].

Lemma resolve_ens_name_quiet (py : Runtime) (self : ENSMCPServer) (a b : json) :
  quiet (resolve_ens_name py self a b).
Proof. unfold resolve_ens_name, resolve_except. quiet_walk. Qed.

Lemma reverse_resolve_address_quiet (py : Runtime) (self : ENSMCPServer) (a : json) :
  quiet (reverse_resolve_address py self a).
Proof. unfold reverse_resolve_address, reverse_except. quiet_walk. Qed.

Lemma get_ens_text_record_quiet (py : Runtime) (self : ENSMCPServer) (a b : json) :
  quiet (get_ens_text_record py self a b).
Proof. unfold get_ens_text_record, text_except. quiet_walk. Qed.

Lemma collect_text_records_quiet (E : ENS) (name : string) (keys : list string) :
  forall acc, quiet (collect_text_records E name keys acc).
Proof.
  induction keys as [|key keys IH]; intro acc; simpl.
  - apply quiet_ret.
  - apply quiet_bind; [quiet_walk | intro; apply IH].
Qed.

Lemma get_ens_info_quiet (py : Runtime) (self : ENSMCPServer) (a : json) :
  quiet (get_ens_info py self a).
Proof.
  unfold get_ens_info, info_except.
  destruct (ens self); [| apply quiet_ret].
  apply quiet_try_except; [| intro; apply quiet_ret].
  apply quiet_bind; [apply quiet_lift | intro].
  apply quiet_try_except; [| intro; apply quiet_ret].
  do 3 (apply quiet_bind; [quiet_walk | intro]).
  apply quiet_bind; [apply collect_text_records_quiet | intro; apply quiet_ret].
Qed.

Lemma handle_tool_call_quiet (py : Runtime) (self : ENSMCPServer) (n a : json) :
  quiet (handle_tool_call py self n a).
Proof.
  unfold handle_tool_call.
  apply quiet_try_except; [| intro; apply quiet_ret].
  repeat match goal with |- quiet (if ?b then _ else _) => destruct b end;
    repeat first [ apply quiet_bind; [apply quiet_lift | intro]
                 | apply resolve_ens_name_quiet
                 | apply reverse_resolve_address_quiet
                 | apply get_ens_text_record_quiet
                 | apply get_ens_info_quiet
                 | apply quiet_ret ].
Qed.

(** The router prints nothing: output belongs to the loop. *)
Lemma handle_message_quiet (py : Runtime) (self : ENSMCPServer) (message : json) :
  quiet (handle_message py self message).
Proof.
  unfold handle_message, handle_message_body.
  apply quiet_try_except; [| intro; quiet_walk].
  apply quiet_bind; [apply quiet_lift | intro method].
  repeat match goal with |- quiet (if ?b then _ else _) => destruct b end;
    repeat first [ apply quiet_bind; [apply quiet_lift | intro]
                 | apply quiet_bind; [apply handle_tool_call_quiet | intro]
                 | apply quiet_ret ].
Qed.

(* ================================================================= *)
(** ** Further properties of the serving loop *)

Lemma handle_message_returns (py : Runtime) (self : ENSMCPServer)
      (d : dict) (t : trace) :
  exists r t', handle_message py self (JDict d) t = (Ok r, t').
Proof.
  rewrite handle_message_dict.
  destruct (handle_message_body py self (JDict d) t) as [[r|e] t'];
    eexists _, _; reflexivity.
Qed.

Lemma serve_line_object (py : Runtime) (self : ENSMCPServer) (line : string)
      (d : dict) (r : json) (t t1 : trace) :
  json_loads py (str_strip py line) = Ok (JDict d) ->
  handle_message py self (JDict d) t = (Ok r, t1) ->
  serve_line py self line t =
  (Ok tt, (t1 ++ [Stdout (json_dumps py None r)])%list).
Proof.
  intros Hparse Hrun.
  unfold serve_line, try_except_cls, bind, lift, emit.
  rewrite Hparse, Hrun. reflexivity.
Qed.

Lemma serve_line_parse_error (py : Runtime) (self : ENSMCPServer) (line : string)
      (e : exn) (t : trace) :
  json_loads py (str_strip py line) = Raise e ->
  is_JSONDecodeError e = true ->
  serve_line py self line t =
  (Ok tt, (t ++ [LogError ("Invalid JSON received: " ++ str_exn e);
                 Stdout (json_dumps py None parse_error_response)])%list).
Proof.
  intros Hparse He.
  unfold serve_line, try_except_cls, bind, lift, emit.
  rewrite Hparse, He. now rewrite <- app_assoc.
Qed.

Lemma serve_line_non_object (py : Runtime) (self : ENSMCPServer) (line : string)
      (message : json) (t : trace) :
  json_loads py (str_strip py line) = Ok message ->
  match message with JDict _ => false | _ => true end = true ->
  serve_line py self line t =
  (Raise (AttributeError (type_name message) "get"), t).
Proof.
  intros Hparse Hnot.
  unfold serve_line, try_except_cls, bind, lift.
  rewrite Hparse. destruct message; try discriminate Hnot; reflexivity.
Qed.

(** X15. For every input line that parses to a JSON object, the loop
    hands the object to [handle_message], prints exactly one line, the
    serialised Response, after whatever calls the handling made, and goes
    on with the remaining lines. *)
Theorem object_line_answered
        (py : Runtime) (self : ENSMCPServer) (line : string) (d : dict)
        (rest : list string) (t : trace) :
  PyStr.is_empty line = false ->
  json_loads py (str_strip py line) = Ok (JDict d) ->
  exists response t1,
    handle_message py self (JDict d) t = (Ok response, t1) /\
    printed t1 = printed t /\
    serve_forever py self (line :: rest) t =
    serve_forever py self rest
      (t1 ++ [Stdout (json_dumps py None response)])%list.
Proof.
  intros Hline Hparse.
  destruct (handle_message_returns py self d t) as (r & t1 & Hrun).
  exists r, t1. split; [exact Hrun |]. split.
  - pose proof (handle_message_quiet py self (JDict d) t) as Hq.
    now rewrite Hrun in Hq.
  - simpl. rewrite Hline. unfold bind at 1.
    now rewrite (serve_line_object py self line d r t t1 Hparse Hrun).
Qed.

Lemma object_line_answered_witness :
  PyStr.is_empty ("{}" ++ nl) = false /\
  json_loads Demo.py (str_strip Demo.py ("{}" ++ nl)) = Ok (JDict []) /\
  exists response t1,
    handle_message Demo.py Demo.server (JDict []) [] = (Ok response, t1) /\
    printed t1 = printed [] /\
    serve_forever Demo.py Demo.server ["{}" ++ nl; "{}" ++ nl] [] =
    serve_forever Demo.py Demo.server ["{}" ++ nl]
      (t1 ++ [Stdout (json_dumps Demo.py None response)])%list.
Proof.
  split; [reflexivity |]. split; [reflexivity |].
  exact (object_line_answered Demo.py Demo.server ("{}" ++ nl) []
           ["{}" ++ nl] [] eq_refl eq_refl).
Defined.

(** X16. One line out per line in.  When every line read is non-empty and
    either makes [json.loads] raise [JSONDecodeError] or parses to a JSON
    object, the loop runs to the end of the input without raising and has
    printed exactly as many lines as it read. *)
Theorem one_response_per_line
        (py : Runtime) (self : ENSMCPServer) (stdin : list string) (t : trace) :
  forallb (request_line py) stdin = true ->
  exists t',
    serve_forever py self stdin t = (Ok tt, t') /\
    length (printed t') = length (printed t) + length stdin.
Proof.
  revert t. induction stdin as [|line rest IH]; intros t Hall.
  - exists t. split; [reflexivity | simpl; lia].
  - simpl in Hall. apply andb_prop in Hall as [Hline Hrest].
    unfold request_line in Hline. apply andb_prop in Hline as [Hne Hparse].
    apply negb_true_iff in Hne.
    assert (Hstep : exists out t1,
               serve_line py self line t = (Ok tt, t1) /\
               printed t1 = (printed t ++ [out])%list).
    { destruct (json_loads py (str_strip py line)) as [message|e] eqn:Hl.
      - destruct message as [| b | z | f | s | l | d]; try discriminate Hparse.
        destruct (handle_message_returns py self d t) as (r & t1 & Hrun).
        exists (json_dumps py None r), (t1 ++ [Stdout (json_dumps py None r)])%list.
        split; [exact (serve_line_object py self line d r t t1 Hl Hrun) |].
        rewrite printed_app. simpl.
        pose proof (handle_message_quiet py self (JDict d) t) as Hq.
        rewrite Hrun in Hq. simpl in Hq. now rewrite Hq.
      - eexists _, _.
        split; [exact (serve_line_parse_error py self line e t Hl Hparse) |].
        rewrite printed_app. reflexivity. }
    destruct Hstep as (out & t1 & Hrun & Hprinted).
    destruct (IH t1 Hrest) as (t' & Hloop & Hcount).
    exists t'. split.
    + simpl. rewrite Hne. unfold bind. now rewrite Hrun.
    + rewrite Hcount, Hprinted, length_app. simpl. lia.
Qed.

Lemma one_response_per_line_witness :
  forallb (request_line Demo.py) ["{}" ++ nl; "oops" ++ nl; "{}" ++ nl] = true /\
  exists t',
    serve_forever Demo.py Demo.server ["{}" ++ nl; "oops" ++ nl; "{}" ++ nl] []
    = (Ok tt, t') /\
    length (printed t') = length (printed []) + 3.
Proof.
  split; [reflexivity |].
  exact (one_response_per_line Demo.py Demo.server
           ["{}" ++ nl; "oops" ++ nl; "{}" ++ nl] [] eq_refl).
Defined.

(** X17. A line that parses to something other than a JSON object ends
    the serving loop: [handle_message] raises on it, nothing is printed for
    it, the lines after it are never read, and [run_stdio] logs the error
    and stops. *)
Theorem non_object_line_ends_loop
        (py : Runtime) (self : ENSMCPServer) (line : string) (message : json)
        (rest : list string) (t : trace) :
  PyStr.is_empty line = false ->
  json_loads py (str_strip py line) = Ok message ->
  match message with JDict _ => false | _ => true end = true ->
  run_stdio py self (line :: rest) t =
  (Ok tt,
   (t ++ [LogInfo "Starting ENS MCP Server with stdio transport";
          LogError ("Server error: '" ++ type_name message
                    ++ "' object has no attribute 'get'");
          LogInfo "ENS MCP Server stopped"])%list).
Proof.
  intros Hline Hparse Hnot.
  unfold run_stdio, try_except. unfold bind at 1 2. unfold emit at 1.
  simpl serve_forever. rewrite Hline. unfold bind at 1.
  rewrite (serve_line_non_object py self line message _ Hparse Hnot).
  unfold bind, emit. simpl. rewrite <- !app_assoc. reflexivity.
Qed.

Lemma non_object_line_ends_loop_witness :
  PyStr.is_empty ("[]" ++ nl) = false /\
  json_loads Demo.py (str_strip Demo.py ("[]" ++ nl)) = Ok (JList []) /\
  run_stdio Demo.py Demo.server ["[]" ++ nl; "{}" ++ nl] [] =
  (Ok tt,
   [LogInfo "Starting ENS MCP Server with stdio transport";
    LogError "Server error: 'list' object has no attribute 'get'";
    LogInfo "ENS MCP Server stopped"]).
Proof.
  split; [reflexivity |]. split; [reflexivity |].
  exact (non_object_line_ends_loop Demo.py Demo.server ("[]" ++ nl) (JList [])
           ["{}" ++ nl] [] eq_refl eq_refl eq_refl).
Defined.

Lemma run_stdio_returns (py : Runtime) (self : ENSMCPServer)
      (stdin : list string) (t : trace) :
  exists t',
    run_stdio py self stdin t =
    (Ok tt, (t' ++ [LogInfo "ENS MCP Server stopped"])%list).
Proof.
  unfold run_stdio, try_except. unfold bind at 1 2. unfold emit at 1.
  destruct (serve_forever py self stdin
              (t ++ [LogInfo "Starting ENS MCP Server with stdio transport"])%list)
    as [[[]|e] t1]; unfold emit; simpl; eexists; reflexivity.
Qed.

(** X18. [run_stdio] never raises, whatever the input and the collaborator
    do: it always returns, and the last thing it does is log that the server
    stopped. *)
Theorem run_stdio_always_returns
        (py : Runtime) (self : ENSMCPServer) (stdin : list string) (t : trace) :
  exists t',
    run_stdio py self stdin t =
    (Ok tt, (t' ++ [LogInfo "ENS MCP Server stopped"])%list).
Proof. exact (run_stdio_returns py self stdin t). Qed.

(** X19. Reading stops at the first empty read: whatever follows it in the
    stream is never looked at. *)
Theorem empty_read_ends_loop
        (py : Runtime) (self : ENSMCPServer) (before after : list string)
        (t : trace) :
  serve_forever py self (before ++ EmptyString :: after)%list t =
  serve_forever py self before t.
Proof.
  revert t. induction before as [|line rest IH]; intro t; simpl.
  - reflexivity.
  - destruct (PyStr.is_empty line); [reflexivity |].
    unfold bind. destruct (serve_line py self line t) as [[u|e] t1];
      [apply IH | reflexivity].
Qed.

(* ================================================================= *)
(** ** The smoke test and the entry point *)

Lemma returns_bind {A B} (m : M A) (k : A -> M B) (t : trace)
      (P : A -> Prop) (Q : B -> Prop) :
  returns m t P ->
  (forall a t1, P a -> returns (k a) t1 Q) ->
  returns (bind m k) t Q.
Proof.
  intros (a & t1 & Hrun & HP) Hk. unfold returns, bind. rewrite Hrun.
  exact (Hk a t1 HP).
Qed.

Lemma returns_emit (ev : event) (t : trace) : returns (emit ev) t (fun _ => True).
Proof. eexists _, _. split; [reflexivity | exact I]. Qed.

Lemma resolve_ens_name_shape (py : Runtime) (self : ENSMCPServer)
      (a b : json) (t : trace) :
  returns (resolve_ens_name py self a b) t resolve_shape.
Proof.
  unfold returns, resolve_shape, resolve_ens_name, resolve_except.
  destruct (ens self) as [E|];
    [| simpl; eexists _, _; split; [reflexivity |];
       eexists; split; [reflexivity | left; reflexivity]].
  run_monad.
  destruct a;
    try (simpl; eexists _, _; split; [reflexivity |];
         eexists; split; [reflexivity | left; reflexivity]).
  destruct (py_eq_60 b);
    match goal with |- context [ens_address ?e ?n ?c] =>
      destruct (ens_address e n c) as [address|err] end;
    simpl; try destruct (truthy address); try destruct (is_ENSException err);
    simpl; eexists _, _; (split; [reflexivity |]);
    eexists; (split; [reflexivity |]);
    first [ left; reflexivity | right; split; [reflexivity | eexists; reflexivity] ].
Qed.

Lemma test_server_returns (py : Runtime) (server : ENSMCPServer) (t : trace) :
  returns (test_server py server) t (fun _ => True).
Proof.
  unfold test_server.
  do 3 (eapply returns_bind; [apply returns_emit | clear t; intros _ t _]).
  eapply returns_bind; [apply resolve_ens_name_shape | clear t; intros result t Hshape].
  do 2 (eapply returns_bind; [apply returns_emit | clear t; intros _ t _]).
  destruct Hshape as (d & -> & Hsuccess).
  assert (Htail : forall tr,
    returns
      (emit (Stdout (nl ++ "📝 Testing Text Records:")) ;;
       text_result <- get_ens_text_record py server (JStr "vitalik.eth") (JStr "url") ;;
       emit (Stdout ("vitalik.eth url -> " ++ json_dumps py (Some 2) text_result)) ;;
       emit (Stdout (nl ++ "📊 Testing Comprehensive Info:")) ;;
       info_result <- get_ens_info py server (JStr "vitalik.eth") ;;
       emit (Stdout ("vitalik.eth info -> " ++ json_dumps py (Some 2) info_result)) ;;
       emit (Stdout (nl ++ "✅ Testing completed!"))) tr (fun _ => True)).
  { intro tr.
    eapply returns_bind; [apply returns_emit | clear tr; intros _ tr _].
    eapply returns_bind; [apply get_ens_text_record_envelope | clear tr; intros ? tr _].
    do 2 (eapply returns_bind; [apply returns_emit | clear tr; intros _ tr _]).
    eapply returns_bind; [apply get_ens_info_envelope | clear tr; intros ? tr _].
    eapply returns_bind; [apply returns_emit | clear tr; intros _ tr _].
    apply returns_emit. }
  eapply returns_bind with (P := fun success =>
      dict_get "success" d = Some success);
    [ unfold returns, lift, py_subscript;
      destruct Hsuccess as [-> | [-> _]]; eexists _, _; split; reflexivity
    | clear t; intros success t Hs ].
  eapply returns_bind with (P := fun proceed : bool =>
      proceed = true -> exists address, dict_get "address" d = Some address).
  - destruct Hsuccess as [Hfalse | [Htrue (address & Haddress)]].
    + rewrite Hfalse in Hs. injection Hs as <-. simpl.
      eexists _, _. split; [reflexivity | discriminate].
    + rewrite Htrue in Hs. injection Hs as <-. simpl.
      unfold returns, bind, lift, py_subscript, ret. rewrite Haddress.
      eexists _, _. split; [reflexivity |]. intros _. now exists address.
  - clear t. intros proceed t Hp.
    eapply returns_bind with (P := fun _ : unit => True);
      [| intros _ tr _; apply Htail].
    destruct proceed; [| eexists _, _; split; [reflexivity | exact I]].
    destruct (Hp eq_refl) as (address & Haddress).
    unfold returns, bind, lift, py_subscript, emit. rewrite Haddress.
    destruct (reverse_resolve_address_envelope py server address t)
      as (r & t2 & -> & _).
    eexists _, _. split; [reflexivity | exact I].
Qed.

(** X20. The smoke test runs to completion on every server and whatever
    the collaborator does.  It has no handler of its own: it relies on the
    operations never raising, on [resolve_ens_name] always returning an
    object with a [success] key, and on that object having an [address]
    whenever [success] is true, which is the only case in which the reverse
    lookup is attempted. *)
Theorem test_server_completes
        (py : Runtime) (server : ENSMCPServer) (t : trace) :
  exists t', test_server py server t = (Ok tt, t').
Proof.
  destruct (test_server_returns py server t) as ([] & t' & Hrun & _).
  now exists t'.
Qed.

Lemma init_quiet (py : Runtime) (url : string) : quiet (init py url).
Proof. unfold init, initialize_web3. quiet_walk. Qed.

(** X21. [main] starts serving only with a fully initialised server.  If
    the constructor raises, [main] raises the same exception having read no
    input and printed nothing; once the constructor has returned, [main]
    itself returns normally in either transport mode. *)
Theorem main_outcome
        (py : Runtime) (url transport : string) (stdin : list string) (t : trace) :
  match init py url t with
  | (Raise e, t1) =>
      main py url transport stdin t = (Raise e, t1) /\ printed t1 = printed t
  | (Ok server, t1) =>
      exists t', main py url transport stdin t = (Ok tt, t')
  end.
Proof.
  pose proof (init_quiet py url t) as Hq.
  unfold main, bind.
  destruct (init py url t) as [[server|e] t1]; [| split; [reflexivity | exact Hq]].
  destruct (String.eqb transport "stdio").
  - destruct (run_stdio_returns py server stdin t1) as (t' & ->). eexists; reflexivity.
  - destruct (String.eqb transport "test").
    + destruct (test_server_returns py server t1) as ([] & t' & -> & _).
      eexists; reflexivity.
    + eexists; reflexivity.
Qed.

(* ================================================================= *)
(** ** The test client against the server *)

(** X22. Every tool request the test client builds is one the server
    routes to the matching domain operation with the client's arguments:
    the Response carries the id the client assigned (its counter advanced
    by one) and, as its text, the envelope that operation returns on those
    arguments, after the calls that operation makes. *)
Theorem client_requests_are_served
        (py : Runtime) (self : ENSMCPServer) (c : Client.ENSMCPClient)
        (x y : string) (coin_type : Z) (t : trace) :
  let served (sent : json * Client.ENSMCPClient) (operation : M json) :=
    Client.message_id (snd sent) = (Client.message_id c + 1)%Z /\
    exists envelope t',
      operation t = (Ok envelope, t') /\
      handle_message py self (fst sent) t =
      (Ok (JDict [("id", JInt (Client.message_id c + 1));
                  ("result", content_of py envelope)]), t') in
  served (Client.resolve_ens_name c x coin_type)
         (resolve_ens_name py self (JStr x) (JInt coin_type)) /\
  served (Client.reverse_resolve_address c x)
         (reverse_resolve_address py self (JStr x)) /\
  served (Client.get_ens_text_record c x y)
         (get_ens_text_record py self (JStr x) (JStr y)) /\
  served (Client.get_ens_info c x)
         (get_ens_info py self (JStr x)).
Proof.
  intro served. subst served. cbv beta.
  assert (Hwrap : forall tool args envelope t',
    handle_tool_call py self (JStr tool) (JDict args) t = (Ok envelope, t') ->
    handle_message py self (fst (Client.call_tool c tool args)) t =
    (Ok (JDict [("id", JInt (Client.message_id c + 1));
                ("result", content_of py envelope)]), t')).
  { intros tool args envelope t' Hcall.
    unfold Client.call_tool, Client.get_next_id. cbn [fst Client.message_id].
    rewrite handle_message_dict.
    unfold handle_message_body, bind, lift, ret, py_get.
    cbn -[handle_tool_call]. rewrite Hcall. reflexivity. }
  split; [| split; [| split]]; (split; [reflexivity |]).
  - destruct (resolve_ens_name_envelope py self (JStr x) (JInt coin_type) t)
      as (r & t' & Hrun & _).
    exists r, t'. split; [exact Hrun |]. apply Hwrap.
    rewrite handle_tool_call_resolve with (v := JStr x) by reflexivity.
    exact Hrun.
  - destruct (reverse_resolve_address_envelope py self (JStr x) t)
      as (r & t' & Hrun & _).
    exists r, t'. split; [exact Hrun |]. apply Hwrap.
    rewrite handle_tool_call_reverse with (v := JStr x) by reflexivity.
    exact Hrun.
  - destruct (get_ens_text_record_envelope py self (JStr x) (JStr y) t)
      as (r & t' & Hrun & _).
    exists r, t'. split; [exact Hrun |]. apply Hwrap.
    rewrite handle_tool_call_text with (v := JStr x) (k := JStr y)
      by reflexivity.
    exact Hrun.
  - destruct (get_ens_info_envelope py self (JStr x) t)
      as (r & t' & Hrun & _).
    exists r, t'. split; [exact Hrun |]. apply Hwrap.
    rewrite handle_tool_call_info with (v := JStr x) by reflexivity.
    exact Hrun.
Qed.
